(** * TaskPilot: the task status lifecycle and the active-task summary

    A shallow embedding of the front-end logic of TaskPilot:

    - [components/TaskList.tsx]: [handleStatusChange],
      [handleConfirmStatusChange], the [onClose] of the confirmation modal and
      [getAvailableStatuses];
    - [components/ConfirmationModal.tsx]: [handleConfirm];
    - [App.tsx] (component [Dashboard]): [handleTaskUpdate] and
      [handleAISummary];
    - [services/taskService.ts]: [getAISummary] and the request interceptor;
    - [components/AddTaskCard.tsx]: [handleInputChange], [handleDateChange],
      [handleSubmit], [handleClose];
    - [components/AISummaryModal.tsx]: the panels of the modal;
    - [context/AuthContext.tsx]: [authReducer] and the operations of
      [AuthProvider];
    - [services/authService.ts]: the interceptors and the service functions;
    - [App.tsx]: [handleAddTask], [ProtectedRoute], [PublicRoute],
      [AppRoutes].

    React state is passed explicitly.  [new Date()] is a parameter [now].  The
    HTTP endpoint behind [taskApi.post] is a parameter [post] of the summary
    section, and every request that is sent is recorded in a log. *)

From Stdlib Require Import String List ZArith Bool Lia.
From Stdlib Require Import Ascii.
Import ListNotations.
Open Scope string_scope.

Set Implicit Arguments.

(** ** Data model *)

(** Modelled from the spec: the declarations of [@/types/task]
    ([TaskStatus], [TaskPriority], [Task]) are not part of the sources at hand;
    the constructors and fields below are the ones the components use, with the
    types section 3 of the specification gives them. *)
Inductive TaskStatus : Type := TODO | IN_PROGRESS | COMPLETED | CANCELLED.

Inductive TaskPriority : Type := low | medium | high.

(** A JavaScript [Date], as milliseconds since the epoch. *)
Definition Date : Type := Z.
Bind Scope Z_scope with Date.

Record Task : Type := mkTask {
  id : string;
  title : string;
  description : option string;   (* [description?: string] *)
  priority : TaskPriority;
  status : TaskStatus;
  createdAt : Date;
  updatedAt : Date;
  dueDate : option Date          (* [dueDate?: Date] *)
}.

(** [status === 'X'] on the four literals. *)
Definition TaskStatus_eqb (a b : TaskStatus) : bool :=
  match a, b with
  | TODO, TODO | IN_PROGRESS, IN_PROGRESS
  | COMPLETED, COMPLETED | CANCELLED, CANCELLED => true
  | _, _ => false
  end.

(** [Partial<Task>]: a field is [Some v] when the object has the key.  For the
    two optional fields of [Task] the inner option is the value itself, so that
    [Some None] is a key that is present and holds [undefined]. *)
Module Partial.
Record t : Type := mk {
  id : option string;
  title : option string;
  description : option (option string);
  priority : option TaskPriority;
  status : option TaskStatus;
  createdAt : option Date;
  updatedAt : option Date;
  dueDate : option (option Date)
}.

(** The object literal [{ status: s, updatedAt: d }]. *)
Definition status_updatedAt (s : TaskStatus) (d : Date) : t :=
  {| id := None; title := None; description := None; priority := None;
     status := Some s; createdAt := None; updatedAt := Some d;
     dueDate := None |}.
End Partial.

(** [{ ...task, ...updates }]: the keys of [updates] win. *)
Definition spread (task : Task) (updates : Partial.t) : Task :=
  let pick {A} (o : option A) (d : A) : A :=
    match o with Some v => v | None => d end in
  {| id := pick (Partial.id updates) (id task);
     title := pick (Partial.title updates) (title task);
     description := pick (Partial.description updates) (description task);
     priority := pick (Partial.priority updates) (priority task);
     status := pick (Partial.status updates) (status task);
     createdAt := pick (Partial.createdAt updates) (createdAt task);
     updatedAt := pick (Partial.updatedAt updates) (updatedAt task);
     dueDate := pick (Partial.dueDate updates) (dueDate task) |}.

(** ** Dashboard: [handleTaskUpdate] (App.tsx, lines 43-49)

    [setTasks(prevTasks => prevTasks.map(task =>
       task.id === taskId ? { ...task, ...updates } : task))] *)
Definition handleTaskUpdate (taskId : string) (updates : Partial.t)
    (prevTasks : list Task) : list Task :=
  map (fun task => if (id task =? taskId)%string then spread task updates
                   else task) prevTasks.

(** ** TaskList (TaskList.tsx) *)

(** The state of [useState<{isOpen; taskId; newStatus}>]. *)
Record ConfirmModal : Type := mkConfirmModal {
  isOpen : bool;
  taskId : string;
  newStatus : TaskStatus
}.

(** [{ isOpen: false, taskId: '', newStatus: 'TODO' }], the initial value and
    the value every reset writes. *)
Definition confirmModal_reset : ConfirmModal :=
  {| isOpen := false; taskId := ""; newStatus := TODO |}.

(** What the handlers of [TaskList] read and write: the [tasks] of the owning
    [Dashboard] (the [tasks] prop is that state, as rendered) and the
    [confirmModal] slot of the list itself. *)
Record View : Type := mkView {
  tasks : list Task;
  confirmModal : ConfirmModal
}.

(** The prop [onTaskUpdate?: (taskId, updates) => void].  [None] is a list
    rendered without the prop; the callback acts on its owner's [tasks]. *)
Definition OnTaskUpdate : Type :=
  option (string -> Partial.t -> list Task -> list Task).

(** [onTaskUpdate?.(taskId, updates)] *)
Definition call_onTaskUpdate (onTaskUpdate : OnTaskUpdate) (i : string)
    (updates : Partial.t) (st : View) : View :=
  match onTaskUpdate with
  | Some f => {| tasks := f i updates (tasks st);
                 confirmModal := confirmModal st |}
  | None => st
  end.

Definition setConfirmModal (m : ConfirmModal) (st : View) : View :=
  {| tasks := tasks st; confirmModal := m |}.

(** [tasks.find(t => t.id === taskId)] *)
Definition findTask (i : string) (ts : list Task) : option Task :=
  find (fun t => (id t =? i)%string) ts.

(** The handlers are declared [=> void]: a call hands [undefined] back to its
    caller, modelled by [unit], next to the state it leaves. *)
Definition Void : Type := unit.
Definition undefined : Void := tt.

Section TaskList.
Variable onTaskUpdate : OnTaskUpdate.

(** [handleStatusChange] (lines 64-81). *)
Definition handleStatusChange (now : Date) (i : string) (target : TaskStatus)
    (st : View) : Void * View :=
  match findTask i (tasks st) with
  | None => (undefined, st)
  | Some task =>
      (* Prevent changing from CANCELLED status *)
      if TaskStatus_eqb (status task) CANCELLED then (undefined, st)
      (* Show confirmation for CANCELLED status *)
      else if TaskStatus_eqb target CANCELLED then
        (undefined,
         setConfirmModal {| isOpen := true; taskId := i;
                            newStatus := target |} st)
      (* Update task status directly for other statuses *)
      else
        (undefined,
         call_onTaskUpdate onTaskUpdate i
           (Partial.status_updatedAt target now) st)
  end.

(** [handleConfirmStatusChange] (lines 83-89). *)
Definition handleConfirmStatusChange (now : Date) (st : View)
    : Void * View :=
  let st1 :=
    call_onTaskUpdate onTaskUpdate (taskId (confirmModal st))
      (Partial.status_updatedAt (newStatus (confirmModal st)) now) st in
  (undefined, setConfirmModal confirmModal_reset st1).

(** The [onClose] handed to the modal (line 205). *)
Definition onClose (st : View) : Void * View :=
  (undefined, setConfirmModal confirmModal_reset st).

(** [handleConfirm] of ConfirmationModal.tsx, the click on the confirm
    button: [onConfirm(); onClose();].  The modal renders nothing while
    [isOpen] is false, so the button exists only for an open slot. *)
Definition ConfirmationModal_handleConfirm (now : Date) (st : View)
    : Void * View :=
  onClose (snd (handleConfirmStatusChange now st)).
End TaskList.

(** [getAvailableStatuses] (lines 91-99): the options of the status select. *)
Definition getAvailableStatuses (currentStatus : TaskStatus)
    : list TaskStatus :=
  if TaskStatus_eqb currentStatus CANCELLED then [currentStatus]
  else [TODO; IN_PROGRESS; COMPLETED; CANCELLED].

(** The list as [Dashboard] renders it:
    [<TaskList tasks={tasks} onTaskUpdate={handleTaskUpdate} />]. *)
Definition Dashboard_onTaskUpdate : OnTaskUpdate := Some handleTaskUpdate.

(** The outcomes the specification names for a status request
    (section 4.1).  The handlers above return [undefined]; this type is what a
    caller would have to be able to read off a call. *)
Inductive TransitionOutcome : Type :=
| Committed
| PendingConfirmation
| Rejected (reason : string).

(** ** The summary of the active tasks *)

(** JavaScript's [a || b] for [a : string | undefined]: [undefined] and the
    empty string are falsy. *)
Definition or_else (a : option string) (b : string) : string :=
  match a with
  | Some s => if (s =? "")%string then b else s
  | None => b
  end.

(** Truthiness of a [string | null | undefined] in a JSX condition. *)
Definition truthy (a : option string) : bool :=
  match a with
  | Some s => negb (s =? "")%string
  | None => false
  end.

(** [task.status === 'TODO' || task.status === 'IN_PROGRESS'], the predicate
    of both filters. *)
Definition isActive (task : Task) : bool :=
  TaskStatus_eqb (status task) TODO || TaskStatus_eqb (status task) IN_PROGRESS.

(** The records of [taskData] in [getAISummary]. *)
Module TaskData.
Record t : Type := mk {
  title : string;
  description : string;
  priority : TaskPriority;
  status : TaskStatus;
  dueDate : option Date
}.
End TaskData.

(** The body of [activeTasks.map(task => ({ ... }))]. *)
Definition project (task : Task) : TaskData.t :=
  {| TaskData.title := title task;
     TaskData.description := or_else (description task) "";
     TaskData.priority := priority task;
     TaskData.status := status task;
     TaskData.dueDate := dueDate task |}.

(** The body of one request to [/ai/summarize-tasks]. *)
Definition Payload : Type := list TaskData.t.

(** A thrown value, as the [catch] of [handleAISummary] reads it: only
    [error.message] matters, and it may be missing. *)
Record JsError : Type := mkError { message : option string }.

(** [new Error(msg)] *)
Definition Error (msg : string) : JsError := {| message := Some msg |}.

(** [response.data] of the summary endpoint, as far as it is read:
    [summary] is [None] when the body has no such field. *)
Record ResponseData : Type := mkResponseData { summary : option string }.

(** How a promise settles. *)
Inductive Settled (A : Type) : Type :=
| Fulfilled (a : A)
| Thrown (e : JsError).
Arguments Fulfilled {A} a.
Arguments Thrown {A} e.

(** The state of [Dashboard] (App.tsx, lines 20-25).  [aiSummary] is declared
    a [string]; it receives [response.data.summary] unchecked, hence the
    option. *)
Module Dashboard.
Record t : Type := mk {
  tasks : list Task;
  isAddTaskModalOpen : bool;
  isAISummaryModalOpen : bool;
  aiSummary : option string;
  isSummaryLoading : bool;
  summaryError : option string    (* [string | null] *)
}.
End Dashboard.

(** A finished run of an [async] function: the state it leaves, the requests
    it sent (oldest first) and how its promise settled. *)
Record Run (A : Type) : Type := mkRun {
  final : Dashboard.t;
  requests : list Payload;
  settled : Settled A
}.

(** Effectful code over the state of [Dashboard]. *)
Definition Eff (A : Type) : Type := Dashboard.t -> Run A.

Definition ret {A} (a : A) : Eff A :=
  fun s => mkRun s [] (Fulfilled a).

Definition throw {A} (e : JsError) : Eff A :=
  fun s => mkRun s [] (Thrown e).

Definition bind {A B} (m : Eff A) (k : A -> Eff B) : Eff B :=
  fun s =>
    let r := m s in
    match settled r with
    | Fulfilled a =>
        let r' := k a (final r) in
        mkRun (final r') (requests r ++ requests r') (settled r')
    | Thrown e => mkRun (final r) (requests r) (Thrown e)
    end.

Notation "x <- m ;; k" := (bind m (fun x => k))
  (at level 61, m at next level, right associativity).
Notation "m ;; k" := (bind m (fun _ => k))
  (at level 61, right associativity).

(** [try { body } catch (error) { handler } finally { fin }] *)
Definition tryCatchFinally (body : Eff unit) (handler : JsError -> Eff unit)
    (fin : Eff unit) : Eff unit :=
  fun s =>
    let r := body s in
    let r1 :=
      match settled r with
      | Fulfilled _ => r
      | Thrown e =>
          let h := handler e (final r) in
          mkRun (final h) (requests r ++ requests h) (settled h)
      end in
    let f := fin (final r1) in
    mkRun (final f) (requests r1 ++ requests f)
      (match settled f with
       | Thrown e => Thrown e
       | Fulfilled _ => settled r1
       end).

Definition modify (f : Dashboard.t -> Dashboard.t) : Eff unit :=
  fun s => mkRun (f s) [] (Fulfilled tt).

Definition setIsSummaryLoading (b : bool) : Eff unit :=
  modify (fun s =>
    Dashboard.mk (Dashboard.tasks s) (Dashboard.isAddTaskModalOpen s)
      (Dashboard.isAISummaryModalOpen s) (Dashboard.aiSummary s) b
      (Dashboard.summaryError s)).

Definition setSummaryError (e : option string) : Eff unit :=
  modify (fun s =>
    Dashboard.mk (Dashboard.tasks s) (Dashboard.isAddTaskModalOpen s)
      (Dashboard.isAISummaryModalOpen s) (Dashboard.aiSummary s)
      (Dashboard.isSummaryLoading s) e).

Definition setAiSummary (a : option string) : Eff unit :=
  modify (fun s =>
    Dashboard.mk (Dashboard.tasks s) (Dashboard.isAddTaskModalOpen s)
      (Dashboard.isAISummaryModalOpen s) a (Dashboard.isSummaryLoading s)
      (Dashboard.summaryError s)).

Definition setIsAISummaryModalOpen (b : bool) : Eff unit :=
  modify (fun s =>
    Dashboard.mk (Dashboard.tasks s) (Dashboard.isAddTaskModalOpen s) b
      (Dashboard.aiSummary s) (Dashboard.isSummaryLoading s)
      (Dashboard.summaryError s)).

(** The [tasks] the handler closes over. *)
Definition readTasks : Eff (list Task) :=
  fun s => mkRun s [] (Fulfilled (Dashboard.tasks s)).

Definition noActiveTasksError : JsError :=
  Error "No active tasks to summarize".

Definition emptyNotice : string :=
  "No incomplete tasks to summarize. All tasks are either completed or cancelled.".

Definition defaultFailure : string :=
  "Failed to generate AI summary. Please try again later.".

Section Summary.
(** The summary endpoint: how [taskApi.post('/ai/summarize-tasks', taskData)]
    settles for a given body.  A network failure, a timeout of the transport
    and a response with an error status all reject the promise. *)
Variable post : Payload -> Settled ResponseData.

(** [await taskApi.post('/ai/summarize-tasks', taskData)] *)
Definition taskApi_post (taskData : Payload) : Eff ResponseData :=
  fun s => mkRun s [taskData] (post taskData).

(** [taskService.getAISummary] (services/taskService.ts). *)
Definition getAISummary (tasks : list Task) : Eff (option string) :=
  (* Filter tasks to only include TODO and IN_PROGRESS *)
  let activeTasks := filter isActive tasks in
  if (length activeTasks =? 0)%nat then throw noActiveTasksError
  else
    (* Prepare task data for AI summarization *)
    let taskData := map project activeTasks in
    response <- taskApi_post taskData ;;
    ret (summary response).

(** [handleAISummary] (App.tsx, lines 51-82).  The early [return] of the empty
    case leaves the [try] block through [finally], like every other exit.
    [console.error] is left out. *)
Definition handleAISummary : Eff unit :=
  setIsSummaryLoading true ;;
  setSummaryError None ;;
  setAiSummary (Some "") ;;
  setIsAISummaryModalOpen true ;;
  tryCatchFinally
    (tasks <- readTasks ;;
     (* Filter only incomplete tasks (TODO and IN_PROGRESS) *)
     let incompleteTasks := filter isActive tasks in
     if (length incompleteTasks =? 0)%nat then
       setAiSummary (Some emptyNotice)
     else
       summary <- getAISummary incompleteTasks ;;
       setAiSummary summary)
    (fun error => setSummaryError (Some (or_else (message error) defaultFailure)))
    (setIsSummaryLoading false).
End Summary.

(** What the body of [AISummaryModal] shows (AISummaryModal.tsx): each panel
    is guarded by its own condition, in this order. *)
Inductive Panel : Type :=
| LoadingPanel
| ErrorPanel (error : string)
| SummaryPanel (summary : string)
| NoSummaryPanel.

Definition AISummaryModal (s : Dashboard.t) : list Panel :=
  if negb (Dashboard.isAISummaryModalOpen s) then []
  else
    let isLoading := Dashboard.isSummaryLoading s in
    let error := Dashboard.summaryError s in
    let summary := Dashboard.aiSummary s in
    (if isLoading then [LoadingPanel] else []) ++
    (if truthy error then [ErrorPanel (or_else error "")] else []) ++
    (if negb isLoading && negb (truthy error) && truthy summary
     then [SummaryPanel (or_else summary "")] else []) ++
    (if negb isLoading && negb (truthy error) && negb (truthy summary)
     then [NoSummaryPanel] else []).

(** ** Sample data *)

Definition sampleTask (i : string) (s : TaskStatus) : Task :=
  {| id := i; title := "Write report"; description := None;
     priority := medium; status := s; createdAt := 1000; updatedAt := 1000;
     dueDate := None |}.

Definition sampleView : View :=
  {| tasks := [sampleTask "a" CANCELLED; sampleTask "b" TODO;
               sampleTask "c" COMPLETED];
     confirmModal := confirmModal_reset |}.

Definition sampleDashboard (ts : list Task) : Dashboard.t :=
  {| Dashboard.tasks := ts; Dashboard.isAddTaskModalOpen := false;
     Dashboard.isAISummaryModalOpen := false;
     Dashboard.aiSummary := Some ""; Dashboard.isSummaryLoading := false;
     Dashboard.summaryError := None |}.

(** An endpoint that answers every request with the same summary text. *)
Definition answering (text : option string) : Payload -> Settled ResponseData :=
  fun _ => Fulfilled {| summary := text |}.

(** An endpoint whose every request fails with the same error. *)
Definition failing (e : JsError) : Payload -> Settled ResponseData :=
  fun _ => Thrown e.

(** A task with its internal fields ([id], [createdAt], [updatedAt])
    replaced and everything else kept. *)
Definition withInternals (i : string) (c u : Date) (t : Task) : Task :=
  {| id := i; title := title t; description := description t;
     priority := priority t; status := status t; createdAt := c;
     updatedAt := u; dueDate := dueDate t |}.

(** The cancellations awaiting confirmation: what an open slot holds. *)
Definition pending (m : ConfirmModal) : list (string * TaskStatus) :=
  if isOpen m then [(taskId m, newStatus m)] else [].

(** ** Creating tasks and the events of the task list *)

(** Modelled from the spec: [CreateTaskData] of [@/types/task] is not part of
    the sources at hand; the fields are the ones [AddTaskCard] fills and
    [handleAddTask] reads. *)
Module CreateTaskData.
Record t : Type := mk {
  title : string;
  description : option string;
  priority : TaskPriority;
  dueDate : option Date
}.
End CreateTaskData.

(** The [newTask] of [handleAddTask] (App.tsx, lines 29-38): [uuid] is the
    result of [crypto.randomUUID()], [created] and [updated] are the two
    [new Date()]. *)
Definition newTask (uuid : string) (created updated : Date)
    (taskData : CreateTaskData.t) : Task :=
  {| id := uuid;
     title := CreateTaskData.title taskData;
     description := CreateTaskData.description taskData;
     priority := CreateTaskData.priority taskData;
     status := TODO;
     createdAt := created;
     updatedAt := updated;
     dueDate := CreateTaskData.dueDate taskData |}.

(** [handleAddTask] (App.tsx, lines 27-41):
    [setTasks(prevTasks => [...prevTasks, newTask])]. *)
Definition handleAddTask (uuid : string) (created updated : Date)
    (taskData : CreateTaskData.t) (prevTasks : list Task) : list Task :=
  prevTasks ++ [newTask uuid created updated taskData].

(** What a user can do to the rendered list: change a status select, press
    one of the two buttons of the confirmation modal, add a task.  The modal
    returns [null] while [isOpen] is false (ConfirmationModal.tsx), so its
    buttons act only on an open slot. *)
Inductive Event : Type :=
| SelectStatus (now : Date) (i : string) (target : TaskStatus)
| ClickConfirm (now : Date)
| ClickCancel
| SubmitTask (uuid : string) (created updated : Date)
    (taskData : CreateTaskData.t).

Definition step (e : Event) (st : View) : View :=
  match e with
  | SelectStatus now i target =>
      snd (handleStatusChange Dashboard_onTaskUpdate now i target st)
  | ClickConfirm now =>
      if isOpen (confirmModal st)
      then snd (ConfirmationModal_handleConfirm Dashboard_onTaskUpdate now st)
      else st
  | ClickCancel =>
      if isOpen (confirmModal st) then snd (onClose st) else st
  | SubmitTask uuid created updated taskData =>
      {| tasks := handleAddTask uuid created updated taskData (tasks st);
         confirmModal := confirmModal st |}
  end.

Definition run (es : list Event) (st : View) : View :=
  fold_left (fun s e => step e s) es st.

(** [crypto.randomUUID()] is taken to return an identifier no task of the
    list has: the condition on a sequence of events that says so. *)
Fixpoint uuids_fresh (es : list Event) (st : View) : Prop :=
  match es with
  | [] => True
  | e :: es' =>
      match e with
      | SubmitTask uuid _ _ _ => ~ In uuid (map id (tasks st))
      | _ => True
      end /\ uuids_fresh es' (step e st)
  end.

(** The state [Dashboard] and [TaskList] start in. *)
Definition initialView : View :=
  {| tasks := []; confirmModal := confirmModal_reset |}.

(** Identifiers are unique, and an open slot always asks to cancel a task of
    the list that is not cancelled yet. *)
Definition slot_ok (st : View) : Prop :=
  isOpen (confirmModal st) = true ->
  newStatus (confirmModal st) = CANCELLED /\
  exists task, findTask (taskId (confirmModal st)) (tasks st) = Some task /\
               status task <> CANCELLED.

Definition well_formed (st : View) : Prop :=
  NoDup (map id (tasks st)) /\ slot_ok st.

(** The fields of a task no handler of the list writes. *)
Definition fixedPart (t : Task)
    : string * string * option string * TaskPriority * Date * option Date :=
  (id t, title t, description t, priority t, createdAt t, dueDate t).

(** The tasks a sequence of events adds, oldest first. *)
Definition submitted (es : list Event) : list Task :=
  flat_map (fun e => match e with
                     | SubmitTask uuid created updated taskData =>
                         [newTask uuid created updated taskData]
                     | _ => []
                     end) es.

(** The [disabled] of the 'Summarise with AI' button (App.tsx, line 117):
    [tasks.filter(t => t.status === 'TODO' || t.status === 'IN_PROGRESS')
       .length === 0]. *)
Definition summaryButton_disabled (s : Dashboard.t) : bool :=
  (length (filter isActive (Dashboard.tasks s)) =? 0)%nat.

(** ** The add-task form (AddTaskCard.tsx) *)

(** The two [useState] of [AddTaskCard]. *)
Record AddTaskCard : Type := mkAddTaskCard {
  formData : CreateTaskData.t;
  isSubmitting : bool
}.

(** [{ title: '', description: '', priority: 'medium' }], the initial form
    and the form after every reset: there is no [dueDate] key. *)
Definition formData_reset : CreateTaskData.t :=
  {| CreateTaskData.title := ""; CreateTaskData.description := Some "";
     CreateTaskData.priority := medium; CreateTaskData.dueDate := None |}.

(** A change event of one of the three named controls of the form:
    [e.target.name] and [e.target.value]; the select holds one of its three
    option values. *)
Inductive InputChange : Type :=
| ChangeTitle (value : string)
| ChangeDescription (value : string)
| ChangePriority (value : TaskPriority).

(** [handleInputChange] (lines 24-30): [{ ...prev, [name]: value }]. *)
Definition handleInputChange (e : InputChange) (prev : CreateTaskData.t)
    : CreateTaskData.t :=
  match e with
  | ChangeTitle value =>
      CreateTaskData.mk value (CreateTaskData.description prev)
        (CreateTaskData.priority prev) (CreateTaskData.dueDate prev)
  | ChangeDescription value =>
      CreateTaskData.mk (CreateTaskData.title prev) (Some value)
        (CreateTaskData.priority prev) (CreateTaskData.dueDate prev)
  | ChangePriority value =>
      CreateTaskData.mk (CreateTaskData.title prev)
        (CreateTaskData.description prev) value (CreateTaskData.dueDate prev)
  end.

(** [handleDateChange] (lines 32-38): [value ? new Date(value) : undefined];
    the argument is [None] for the empty value and the parsed date
    otherwise. *)
Definition handleDateChange (value : option Date) (prev : CreateTaskData.t)
    : CreateTaskData.t :=
  CreateTaskData.mk (CreateTaskData.title prev)
    (CreateTaskData.description prev) (CreateTaskData.priority prev) value.

Section AddTaskCardHandlers.
(** [String.prototype.trim]. *)
Variable trim : string -> string.

(** The props [onSubmit] and [onClose], acting on the state of the owner. *)
Variable onSubmit : CreateTaskData.t -> Dashboard.t -> Dashboard.t * Settled unit.
Variable onCloseCard : Dashboard.t -> Dashboard.t.

(** [handleSubmit] (lines 40-59), from the click to the end of [finally]. *)
Definition AddTaskCard_handleSubmit (card : AddTaskCard) (d : Dashboard.t)
    : AddTaskCard * Dashboard.t :=
  if (trim (CreateTaskData.title (formData card)) =? "")%string then (card, d)
  else
    let (d1, r) := onSubmit (formData card) d in
    match r with
    | Fulfilled _ =>
        ({| formData := formData_reset; isSubmitting := false |},
         onCloseCard d1)
    | Thrown _ =>
        ({| formData := formData card; isSubmitting := false |}, d1)
    end.

(** [handleClose] (lines 61-68). *)
Definition AddTaskCard_handleClose (card : AddTaskCard) (d : Dashboard.t)
    : AddTaskCard * Dashboard.t :=
  ({| formData := formData_reset; isSubmitting := isSubmitting card |},
   onCloseCard d).
End AddTaskCardHandlers.

(** The card as [Dashboard] renders it: [onSubmit={handleAddTask}] and
    [onClose={() => setIsAddTaskModalOpen(false)}]. *)
Definition Dashboard_handleAddTask (uuid : string) (created updated : Date)
    (taskData : CreateTaskData.t) (d : Dashboard.t)
    : Dashboard.t * Settled unit :=
  (Dashboard.mk
     (handleAddTask uuid created updated taskData (Dashboard.tasks d))
     (Dashboard.isAddTaskModalOpen d) (Dashboard.isAISummaryModalOpen d)
     (Dashboard.aiSummary d) (Dashboard.isSummaryLoading d)
     (Dashboard.summaryError d),
   Fulfilled tt).

Definition Dashboard_closeAddTask (d : Dashboard.t) : Dashboard.t :=
  Dashboard.mk (Dashboard.tasks d) false (Dashboard.isAISummaryModalOpen d)
    (Dashboard.aiSummary d) (Dashboard.isSummaryLoading d)
    (Dashboard.summaryError d).

Definition Dashboard_submitForm (trim : string -> string) (uuid : string)
    (created updated : Date) (card : AddTaskCard) (d : Dashboard.t)
    : AddTaskCard * Dashboard.t :=
  AddTaskCard_handleSubmit trim (Dashboard_handleAddTask uuid created updated)
    Dashboard_closeAddTask card d.

(** A trim for the examples: it removes leading and trailing spaces. *)
Fixpoint dropSpaces (s : string) : string :=
  match s with
  | String " "%char s' => dropSpaces s'
  | _ => s
  end.

Fixpoint reverse (s acc : string) : string :=
  match s with
  | EmptyString => acc
  | String c s' => reverse s' (String c acc)
  end.

Definition sampleTrim (s : string) : string :=
  reverse (dropSpaces (reverse (dropSpaces s) "")) "".

(** ** Authentication (types/auth.ts, context/AuthContext.tsx,
       services/authService.ts) and the routes of App.tsx *)

Module Auth.

Module UserResponse.
Record t : Type := mk {
  id : Z;                       (* [number] *)
  email : string;
  username : string;
  full_name : option string;
  is_active : bool;
  is_superuser : bool;
  created_at : string
}.
End UserResponse.

Module TokenResponse.
Record t : Type := mk {
  access_token : string;
  token_type : string;
  user : UserResponse.t
}.
End TokenResponse.

Record AuthState : Type := mkAuthState {
  user : option UserResponse.t;       (* [UserResponse | null] *)
  token : option string;              (* [string | null] *)
  isAuthenticated : bool;
  isLoading : bool
}.

Inductive AuthAction : Type :=
| AUTH_START
| AUTH_SUCCESS (user : UserResponse.t) (token : string)
| AUTH_FAILURE
| LOGOUT
| SET_LOADING (payload : bool).

(** [authReducer] (AuthContext.tsx, lines 26-64). *)
Definition authReducer (state : AuthState) (action : AuthAction)
    : AuthState :=
  match action with
  | AUTH_START =>
      {| user := user state; token := token state;
         isAuthenticated := isAuthenticated state; isLoading := true |}
  | AUTH_SUCCESS u t =>
      {| user := Some u; token := Some t; isAuthenticated := true;
         isLoading := false |}
  | AUTH_FAILURE =>
      {| user := None; token := None; isAuthenticated := false;
         isLoading := false |}
  | LOGOUT =>
      {| user := None; token := None; isAuthenticated := false;
         isLoading := false |}
  | SET_LOADING payload =>
      {| user := user state; token := token state;
         isAuthenticated := isAuthenticated state; isLoading := payload |}
  end.

Definition initialState : AuthState :=
  {| user := None; token := None; isAuthenticated := false;
     isLoading := true |}.

(** [localStorage]: what [getItem] returns for each key. *)
Definition Storage : Type := string -> option string.

Definition getItem (key : string) (ls : Storage) : option string := ls key.

Definition setItem (key value : string) (ls : Storage) : Storage :=
  fun k => if (k =? key)%string then Some value else ls k.

Definition removeItem (key : string) (ls : Storage) : Storage :=
  fun k => if (k =? key)%string then None else ls k.

(** The request interceptors: the [Authorization] header a request leaves
    with.  [apiClient] (authService.ts) reads the key 'access_token',
    [taskApi] (taskService.ts) reads the key 'token'. *)
Definition bearer (item : option string) : option string :=
  if truthy item then Some ("Bearer " ++ or_else item "") else None.

Definition apiClient_Authorization (ls : Storage) : option string :=
  bearer (getItem "access_token" ls).

Definition taskApi_Authorization (ls : Storage) : option string :=
  bearer (getItem "token" ls).

(** [error.response.data.detail] as the [catch] blocks use it: falsy, or a
    truthy value given by the text [new Error(detail)] makes of it. *)
Inductive Detail : Type :=
| DetailFalsy
| DetailTruthy (text : string).

(** How a request of [apiClient] fails: an axios error that carries a
    response, or anything else (no response, no axios error). *)
Inductive Failure : Type :=
| ResponseError (status : Z) (detail : Detail)
| NoResponse.

Inductive HttpResult (A : Type) : Type :=
| HttpOk (data : A)
| HttpFailed (f : Failure).
Arguments HttpOk {A} data.
Arguments HttpFailed {A} f.

(** The response interceptor of [apiClient]: on status 401 the stored token
    and user are removed; the error is passed on. *)
Definition responseInterceptor (f : Failure) (ls : Storage) : Storage :=
  match f with
  | ResponseError status _ =>
      if (status =? 401)%Z
      then removeItem "user" (removeItem "access_token" ls)
      else ls
  | NoResponse => ls
  end.

(** The [catch] of the three requests of [authService]:
    [new Error(error.response.data.detail || fallback)] for an axios error
    with a response, [new Error(network)] otherwise. *)
Definition serviceError (fallback network : string) (f : Failure) : JsError :=
  match f with
  | ResponseError _ (DetailTruthy text) => Error text
  | ResponseError _ DetailFalsy => Error fallback
  | NoResponse => Error network
  end.

Section AuthService.
(** [JSON.stringify] on a user, and [JSON.parse] read as a user: [None] when
    it throws or gives a falsy value. *)
Variable stringify : UserResponse.t -> string.
Variable parse : string -> option UserResponse.t.

(** The common body of [signup] and [login]. *)
Definition storeSession (fallback network : string)
    (res : HttpResult TokenResponse.t) (ls : Storage)
    : Storage * Settled TokenResponse.t :=
  match res with
  | HttpOk data =>
      (setItem "user" (stringify (TokenResponse.user data))
         (setItem "access_token" (TokenResponse.access_token data) ls),
       Fulfilled data)
  | HttpFailed f =>
      (responseInterceptor f ls, Thrown (serviceError fallback network f))
  end.

(** [authService.signup], given how the request to '/auth/signup' ends. *)
Definition authService_signup :=
  storeSession "Signup failed" "Network error during signup".

(** [authService.login], given how the request to '/auth/login' ends. *)
Definition authService_login :=
  storeSession "Login failed" "Network error during login".

(** [authService.getCurrentUser], given how the request to '/auth/me'
    ends. *)
Definition authService_getCurrentUser (res : HttpResult UserResponse.t)
    (ls : Storage) : Storage * Settled UserResponse.t :=
  match res with
  | HttpOk data => (ls, Fulfilled data)
  | HttpFailed f =>
      (responseInterceptor f ls,
       Thrown (serviceError "Failed to fetch user profile"
                 "Network error fetching user profile" f))
  end.

Definition authService_logout (ls : Storage) : Storage :=
  removeItem "user" (removeItem "access_token" ls).

Definition authService_getToken (ls : Storage) : option string :=
  getItem "access_token" ls.

Definition authService_getStoredUser (ls : Storage)
    : option UserResponse.t :=
  let userStr := getItem "user" ls in
  if truthy userStr then parse (or_else userStr "") else None.

(** The provider: the reducer state next to the storage it works on. *)
Record Provider : Type := mkProvider {
  state : AuthState;
  storage : Storage
}.

Definition dispatch (a : AuthAction) (p : Provider) : Provider :=
  {| state := authReducer (state p) a; storage := storage p |}.

(** [initializeAuth], the effect run on mount (lines 81-97). *)
Definition initializeAuth (p : Provider) : Provider :=
  let token := authService_getToken (storage p) in
  let user := authService_getStoredUser (storage p) in
  match user with
  | Some u =>
      if truthy token then dispatch (AUTH_SUCCESS u (or_else token "")) p
      else dispatch AUTH_FAILURE p
  | None => dispatch AUTH_FAILURE p
  end.

(** The common body of [signup] and [login] of the provider. *)
Definition authenticate
    (call : Storage -> Storage * Settled TokenResponse.t) (p : Provider)
    : Provider * Settled unit :=
  let p1 := dispatch AUTH_START p in
  let (ls, r) := call (storage p1) in
  let p2 := {| state := state p1; storage := ls |} in
  match r with
  | Fulfilled response =>
      (dispatch (AUTH_SUCCESS (TokenResponse.user response)
                   (TokenResponse.access_token response)) p2,
       Fulfilled tt)
  | Thrown error => (dispatch AUTH_FAILURE p2, Thrown error)
  end.

Definition signup (res : HttpResult TokenResponse.t) : Provider -> _ :=
  authenticate (authService_signup res).

Definition login (res : HttpResult TokenResponse.t) : Provider -> _ :=
  authenticate (authService_login res).

Definition logout (p : Provider) : Provider :=
  dispatch LOGOUT {| state := state p;
                     storage := authService_logout (storage p) |}.

(** [refreshUser] (lines 140-156). *)
Definition refreshUser (res : HttpResult UserResponse.t) (p : Provider)
    : Provider * Settled unit :=
  let p1 := dispatch (SET_LOADING true) p in
  let (ls, r) := authService_getCurrentUser res (storage p1) in
  let p2 := {| state := state p1; storage := ls |} in
  match r with
  | Fulfilled u =>
      let token := authService_getToken (storage p2) in
      if truthy token
      then (dispatch (AUTH_SUCCESS u (or_else token "")) p2, Fulfilled tt)
      else (p2, Fulfilled tt)
  | Thrown error => (dispatch AUTH_FAILURE p2, Thrown error)
  end.

(** What happens to a mounted provider. *)
Inductive Op : Type :=
| Mount
| Signup (res : HttpResult TokenResponse.t)
| Login (res : HttpResult TokenResponse.t)
| Logout
| RefreshUser (res : HttpResult UserResponse.t).

Definition apply (o : Op) (p : Provider) : Provider :=
  match o with
  | Mount => initializeAuth p
  | Signup res => fst (signup res p)
  | Login res => fst (login res p)
  | Logout => logout p
  | RefreshUser res => fst (refreshUser res p)
  end.

Definition applyAll (os : list Op) (p : Provider) : Provider :=
  fold_left (fun q o => apply o q) os p.
End AuthService.

(** The reducer state is coherent when [user], [token] and
    [isAuthenticated] say the same thing. *)
Definition coherent (s : AuthState) : Prop :=
  match user s, token s, isAuthenticated s with
  | Some _, Some _, true => True
  | None, None, false => True
  | _, _, _ => False
  end.

(** *** Routes (App.tsx, lines 160-211) *)

(** The location, as the route it matches. *)
Inductive Location : Type :=
| RootPath          (* "/" *)
| LoginPath         (* "/login" *)
| SignupPath        (* "/signup" *)
| DashboardPath     (* "/dashboard" *)
| NoMatch.

Inductive Element : Type :=
| Spinner
| Navigate (to : Location)
| LoginPage
| SignupPage
| DashboardPage
| Blank.

Definition ProtectedRoute (s : AuthState) (children : Element) : Element :=
  if isLoading s then Spinner
  else if isAuthenticated s then children else Navigate LoginPath.

Definition PublicRoute (s : AuthState) (children : Element) : Element :=
  if isLoading s then Spinner
  else if isAuthenticated s then Navigate DashboardPath else children.

Definition AppRoutes (s : AuthState) (l : Location) : Element :=
  match l with
  | LoginPath => PublicRoute s LoginPage
  | SignupPath => PublicRoute s SignupPage
  | DashboardPath => ProtectedRoute s DashboardPage
  | RootPath => Navigate DashboardPath
  | NoMatch => Blank
  end.

(** Rendering a location and following at most [n] [Navigate] elements. *)
Fixpoint settle (n : nat) (s : AuthState) (l : Location)
    : Location * Element :=
  match AppRoutes s l, n with
  | Navigate to, S n' => settle n' s to
  | e, _ => (l, e)
  end.

(** The state after [AUTH_FAILURE] and after [LOGOUT]. *)
Definition loggedOut : AuthState :=
  {| user := None; token := None; isAuthenticated := false;
     isLoading := false |}.

(** An authenticated state holds the token that is stored. *)
Definition token_stored (p : Provider) : Prop :=
  isAuthenticated (state p) = true ->
  token (state p) = authService_getToken (storage p).

(** Sample data: a user, a storage with nothing in it, and stand-ins for
    [JSON.stringify] and [JSON.parse] that only know this user. *)
Definition sampleUser : UserResponse.t :=
  UserResponse.mk 7 "ada@example.com" "ada" None true false
    "2025-01-01T00:00:00".

Definition emptyStorage : Storage := fun _ => None.

Definition sampleStringify (u : UserResponse.t) : string :=
  "{user:" ++ UserResponse.username u ++ "}".

Definition sampleParse (text : string) : option UserResponse.t :=
  if (text =? "{user:ada}")%string then Some sampleUser else None.

Definition sampleSession : TokenResponse.t :=
  TokenResponse.mk "tok123" "bearer" sampleUser.

End Auth.

(** [getStatusDisplayText] (TaskList.tsx, lines 49-62), the label of an
    option of the status select. *)
Definition getStatusDisplayText (s : TaskStatus) : string :=
  match s with
  | TODO => "To Do"
  | IN_PROGRESS => "In Progress"
  | COMPLETED => "Completed"
  | CANCELLED => "Cancelled"
  end.

(** The first four statements of [handleAISummary] (App.tsx, lines 52-55):
    the state the modal is rendered from while the request is awaited. *)
Definition handleAISummary_start : Eff unit :=
  setIsSummaryLoading true ;;
  setSummaryError None ;;
  setAiSummary (Some "") ;;
  setIsAISummaryModalOpen true.

(** * Properties of the status lifecycle *)

Lemma TaskStatus_eqb_eq (a b : TaskStatus) :
  TaskStatus_eqb a b = true <-> a = b.
Proof. destruct a, b; simpl; split; congruence. Qed.

Lemma TaskStatus_eqb_neq (a b : TaskStatus) :
  TaskStatus_eqb a b = false <-> a <> b.
Proof. destruct a, b; simpl; split; congruence. Qed.

Lemma spread_status_updatedAt (task : Task) (s : TaskStatus) (d : Date) :
  spread task (Partial.status_updatedAt s d) =
  {| id := id task; title := title task; description := description task;
     priority := priority task; status := s; createdAt := createdAt task;
     updatedAt := d; dueDate := dueDate task |}.
Proof. reflexivity. Qed.

Lemma id_spread (task : Task) (u : Partial.t) :
  Partial.id u = None -> id (spread task u) = id task.
Proof. intros H. unfold spread. simpl. now rewrite H. Qed.

(** An update that carries no [id] key does not move any task to another
    identifier, so lookups see the updated task or the old one. *)
Lemma findTask_handleTaskUpdate_same (i : string) (u : Partial.t)
    (ts : list Task) (task : Task) :
  Partial.id u = None ->
  findTask i ts = Some task ->
  findTask i (handleTaskUpdate i u ts) = Some (spread task u).
Proof.
  intros Hid. unfold findTask, handleTaskUpdate.
  induction ts as [|t ts IH]; simpl; [discriminate|].
  destruct (id t =? i)%string eqn:E.
  - intros [= ->]. cbn [find]. now rewrite (id_spread _ _ Hid), E.
  - intros H. cbn [find]. rewrite E. auto.
Qed.

Lemma findTask_handleTaskUpdate_other (i j : string) (u : Partial.t)
    (ts : list Task) :
  Partial.id u = None -> j <> i ->
  findTask j (handleTaskUpdate i u ts) = findTask j ts.
Proof.
  intros Hid Hne. unfold findTask, handleTaskUpdate.
  induction ts as [|t ts IH]; simpl; [reflexivity|].
  destruct (id t =? i)%string eqn:E.
  - apply String.eqb_eq in E. cbn [find]. rewrite (id_spread _ _ Hid).
    destruct (id t =? j)%string eqn:E'.
    + apply String.eqb_eq in E'. congruence.
    + exact IH.
  - cbn [find]. destruct (id t =? j)%string; [reflexivity | exact IH].
Qed.

Lemma handleTaskUpdate_no_match (i : string) (u : Partial.t) (ts : list Task) :
  (forall t, In t ts -> id t <> i) -> handleTaskUpdate i u ts = ts.
Proof.
  unfold handleTaskUpdate. induction ts as [|t ts IH]; simpl; intros H.
  - reflexivity.
  - destruct (id t =? i)%string eqn:E.
    + apply String.eqb_eq in E. exfalso. exact (H t (or_introl eq_refl) E).
    + f_equal. apply IH. intros t' Ht'. apply H. now right.
Qed.


Lemma findTask_none (i : string) (ts : list Task) :
  findTask i ts = None <-> (forall t, In t ts -> id t <> i).
Proof.
  unfold findTask. split.
  - intros H t Hin E. apply (find_none _ _ H) in Hin.
    apply String.eqb_neq in Hin. contradiction.
  - induction ts as [|t ts IH]; simpl; intros H; [reflexivity|].
    destruct (id t =? i)%string eqn:E.
    + apply String.eqb_eq in E. exfalso. exact (H t (or_introl eq_refl) E).
    + apply IH. intros t' Ht'. apply H. now right.
Qed.

(** One [handleTaskUpdate] writes [status] and [updatedAt] of a task in the
    same step, or leaves the task as it was. *)
Lemma handleTaskUpdate_atomic (i : string) (s : TaskStatus) (d : Date)
    (ts : list Task) :
  Forall2 (fun old new =>
             new = old \/
             (id old = i /\ status new = s /\ updatedAt new = d))
          ts (handleTaskUpdate i (Partial.status_updatedAt s d) ts).
Proof.
  unfold handleTaskUpdate. induction ts as [|t ts IH]; simpl; constructor.
  - destruct (id t =? i)%string eqn:E; [right | now left].
    apply String.eqb_eq in E. now rewrite spread_status_updatedAt.
  - exact IH.
Qed.

Ltac status_cases :=
  repeat match goal with
         | H : ?s <> ?s |- _ => now destruct H
         | |- context [TaskStatus_eqb ?a ?b] =>
             let E := fresh "E" in
             destruct (TaskStatus_eqb a b) eqn:E;
             [apply TaskStatus_eqb_eq in E | apply TaskStatus_eqb_neq in E];
             try congruence
         end.

(** The two branches of [handleStatusChange] that act. *)
Lemma handleStatusChange_cancel (onTaskUpdate : OnTaskUpdate) (now : Date)
    (i : string) (task : Task) (st : View) :
  findTask i (tasks st) = Some task -> status task <> CANCELLED ->
  handleStatusChange onTaskUpdate now i CANCELLED st
  = (undefined,
     setConfirmModal {| isOpen := true; taskId := i; newStatus := CANCELLED |}
       st).
Proof.
  intros Hf Hs. unfold handleStatusChange. rewrite Hf. now status_cases.
Qed.

Lemma handleStatusChange_direct (onTaskUpdate : OnTaskUpdate) (now : Date)
    (i : string) (target : TaskStatus) (task : Task) (st : View) :
  findTask i (tasks st) = Some task -> status task <> CANCELLED ->
  target <> CANCELLED ->
  handleStatusChange onTaskUpdate now i target st
  = (undefined,
     call_onTaskUpdate onTaskUpdate i (Partial.status_updatedAt target now)
       st).
Proof.
  intros Hf Hs Ht. unfold handleStatusChange. rewrite Hf. now status_cases.
Qed.

(** C1, as the code has it: for a task that is CANCELLED, whatever the
    requested status (CANCELLED included), and for an identifier that resolves
    to no task, [handleStatusChange] returns [undefined] and leaves the task
    collection and the confirmation slot exactly as they were.  The call is
    dropped without any signal: there is no outcome value. *)
Theorem handleStatusChange_terminal_or_unknown
    (onTaskUpdate : OnTaskUpdate) (now : Date) (i : string)
    (target : TaskStatus) (st : View) :
  findTask i (tasks st) = None \/
  (exists task, findTask i (tasks st) = Some task /\ status task = CANCELLED) ->
  handleStatusChange onTaskUpdate now i target st = (undefined, st).
Proof.
  unfold handleStatusChange.
  intros [-> | [task [-> Hs]]]; [reflexivity|].
  now rewrite Hs.
Qed.

Lemma handleStatusChange_terminal_or_unknown_witness :
  handleStatusChange Dashboard_onTaskUpdate 2000 "a" CANCELLED sampleView
    = (undefined, sampleView) /\
  handleStatusChange Dashboard_onTaskUpdate 2000 "zz" IN_PROGRESS sampleView
    = (undefined, sampleView).
Proof.
  split.
  - apply handleStatusChange_terminal_or_unknown. right.
    exists (sampleTask "a" CANCELLED). split; reflexivity.
  - apply handleStatusChange_terminal_or_unknown. left. reflexivity.
Defined.

(** C1 as stated fails: on the cancelled task "a" the call returns the same
    [undefined] as the call that commits "b" to IN_PROGRESS, and leaves the
    whole view untouched, so it is a silent drop; no reading of the returned
    value tells a rejection from a commit. *)
Lemma handleStatusChange_no_rejection_signal :
  handleStatusChange Dashboard_onTaskUpdate 2000 "a" TODO sampleView
    = (undefined, sampleView) /\
  ~ (exists read : Void -> TransitionOutcome,
       (exists reason,
          read (fst (handleStatusChange Dashboard_onTaskUpdate 2000 "a" TODO
                       sampleView)) = Rejected reason) /\
       read (fst (handleStatusChange Dashboard_onTaskUpdate 2000 "b"
                    IN_PROGRESS sampleView)) = Committed).
Proof.
  split; [reflexivity|].
  intros [read [[reason Hr] Hc]]. simpl in Hr, Hc. congruence.
Qed.

(** C3: for a task in a non-terminal state, requesting CANCELLED opens the
    confirmation slot for that task (the pending confirmation) and mutates no
    task; confirming then commits CANCELLED to the task, while closing the
    modal instead leaves the task, and so its status, as it was. *)
Theorem cancel_is_two_phase (now now' : Date) (i : string) (task : Task)
    (st : View) :
  findTask i (tasks st) = Some task ->
  status task <> CANCELLED ->
  let requested :=
    snd (handleStatusChange Dashboard_onTaskUpdate now i CANCELLED st) in
  let confirmed :=
    snd (handleConfirmStatusChange Dashboard_onTaskUpdate now' requested) in
  let discarded := snd (onClose requested) in
  (pending (confirmModal requested) = [(i, CANCELLED)] /\
   tasks requested = tasks st) /\
  (findTask i (tasks confirmed)
     = Some (spread task (Partial.status_updatedAt CANCELLED now')) /\
   (exists task', findTask i (tasks confirmed) = Some task' /\
                  status task' = CANCELLED) /\
   pending (confirmModal confirmed) = []) /\
  (tasks discarded = tasks st /\
   findTask i (tasks discarded) = Some task /\
   pending (confirmModal discarded) = []).
Proof.
  intros Hf Hs. unfold handleStatusChange. rewrite Hf.
  status_cases. simpl.
  assert (Hc : findTask i
                 (handleTaskUpdate i (Partial.status_updatedAt CANCELLED now')
                    (tasks st))
               = Some (spread task (Partial.status_updatedAt CANCELLED now')))
    by now apply findTask_handleTaskUpdate_same.
  repeat split; auto.
  eexists. split; [exact Hc | reflexivity].
Qed.

Lemma cancel_is_two_phase_witness :
  let requested :=
    snd (handleStatusChange Dashboard_onTaskUpdate 2000 "b" CANCELLED
           sampleView) in
  findTask "b"
    (tasks (snd (handleConfirmStatusChange Dashboard_onTaskUpdate 3000
                   requested)))
  = Some (spread (sampleTask "b" TODO)
            (Partial.status_updatedAt CANCELLED 3000)).
Proof.
  refine (proj1 (proj1 (proj2
    (@cancel_is_two_phase 2000 3000 "b" (sampleTask "b" TODO) sampleView
       _ _)))).
  - reflexivity.
  - discriminate.
Defined.

(** C5: for a task in a non-terminal state and a target other than
    CANCELLED, [handleStatusChange] commits at once: the task it found now has
    [status] equal to the target and [updatedAt] equal to the time of the
    call, every other field kept; the two fields are written by one update,
    so every task of the collection has either both new values or is exactly
    as before; the confirmation slot is not touched. *)
Theorem handleStatusChange_commits (now : Date) (i : string)
    (target : TaskStatus) (task : Task) (st : View) :
  findTask i (tasks st) = Some task ->
  status task <> CANCELLED ->
  target <> CANCELLED ->
  let st' :=
    snd (handleStatusChange Dashboard_onTaskUpdate now i target st) in
  findTask i (tasks st')
    = Some {| id := id task; title := title task;
              description := description task; priority := priority task;
              status := target; createdAt := createdAt task;
              updatedAt := now; dueDate := dueDate task |} /\
  Forall2 (fun old new =>
             new = old \/
             (id old = i /\ status new = target /\ updatedAt new = now))
          (tasks st) (tasks st') /\
  (forall j, j <> i -> findTask j (tasks st') = findTask j (tasks st)) /\
  confirmModal st' = confirmModal st.
Proof.
  intros Hf Hs Ht. unfold handleStatusChange. rewrite Hf.
  status_cases. simpl. repeat split.
  - rewrite <- spread_status_updatedAt.
    now apply findTask_handleTaskUpdate_same.
  - apply handleTaskUpdate_atomic.
  - intros j Hj. now apply findTask_handleTaskUpdate_other.
Qed.

Lemma handleStatusChange_commits_witness :
  findTask "b"
    (tasks (snd (handleStatusChange Dashboard_onTaskUpdate 2000 "b"
                   IN_PROGRESS sampleView)))
  = Some {| id := "b"; title := "Write report"; description := None;
            priority := medium; status := IN_PROGRESS; createdAt := 1000;
            updatedAt := 2000; dueDate := None |}.
Proof.
  refine (proj1 (@handleStatusChange_commits 2000 "b" IN_PROGRESS
                   (sampleTask "b" TODO) sampleView _ _ _)).
  - reflexivity.
  - discriminate.
  - discriminate.
Defined.

(** C8: closing the confirmation modal is idempotent: a second [onClose]
    returns the state the first one left, and no [onClose] touches a task. *)
Theorem onClose_idempotent (st : View) :
  onClose (snd (onClose st)) = onClose st /\
  snd (onClose (snd (onClose st))) = snd (onClose st) /\
  tasks (snd (onClose st)) = tasks st /\
  pending (confirmModal (snd (onClose st))) = [].
Proof. repeat split. Qed.

(** C9: the confirmation state is one slot for the whole list.  At most one
    cancellation is pending in any state.  When B's cancellation is requested
    while A's is pending, the slot holds B alone and no task has changed;
    confirming then commits B and leaves A as it was, and closing the modal
    commits nothing: A's request is gone without commit or discard. *)
Theorem confirmModal_single_slot (now1 now2 now3 : Date) (a b : string)
    (ta tb : Task) (st : View) :
  findTask a (tasks st) = Some ta -> status ta <> CANCELLED ->
  findTask b (tasks st) = Some tb -> status tb <> CANCELLED ->
  a <> b ->
  let s1 := snd (handleStatusChange Dashboard_onTaskUpdate now1 a CANCELLED
                   st) in
  let s2 := snd (handleStatusChange Dashboard_onTaskUpdate now2 b CANCELLED
                   s1) in
  let confirmed :=
    snd (handleConfirmStatusChange Dashboard_onTaskUpdate now3 s2) in
  (forall m : ConfirmModal, (length (pending m) <= 1)%nat) /\
  pending (confirmModal s1) = [(a, CANCELLED)] /\
  pending (confirmModal s2) = [(b, CANCELLED)] /\
  tasks s2 = tasks st /\
  findTask a (tasks confirmed) = Some ta /\
  findTask b (tasks confirmed)
    = Some (spread tb (Partial.status_updatedAt CANCELLED now3)) /\
  pending (confirmModal confirmed) = [] /\
  snd (onClose s2) = {| tasks := tasks st; confirmModal := confirmModal_reset |}.
Proof.
  intros Ha Hsa Hb Hsb Hab. unfold handleStatusChange.
  rewrite Ha. status_cases. cbn [snd setConfirmModal tasks].
  rewrite Hb. status_cases. simpl.
  repeat split.
  - intros m. unfold pending. destruct (isOpen m); simpl; lia.
  - rewrite findTask_handleTaskUpdate_other; auto.
  - now apply findTask_handleTaskUpdate_same.
Qed.

Lemma confirmModal_single_slot_witness :
  let st := {| tasks := [sampleTask "a" TODO; sampleTask "b" IN_PROGRESS];
               confirmModal := confirmModal_reset |} in
  let s1 := snd (handleStatusChange Dashboard_onTaskUpdate 1 "a" CANCELLED
                   st) in
  let s2 := snd (handleStatusChange Dashboard_onTaskUpdate 2 "b" CANCELLED
                   s1) in
  pending (confirmModal s2) = [("b", CANCELLED)] /\
  findTask "a"
    (tasks (snd (handleConfirmStatusChange Dashboard_onTaskUpdate 3 s2)))
  = Some (sampleTask "a" TODO).
Proof.
  pose proof (@confirmModal_single_slot 1 2 3 "a" "b"
                (sampleTask "a" TODO) (sampleTask "b" IN_PROGRESS)
                {| tasks := [sampleTask "a" TODO; sampleTask "b" IN_PROGRESS];
                   confirmModal := confirmModal_reset |}) as H.
  specialize (H eq_refl).
  specialize (H ltac:(discriminate)).
  specialize (H eq_refl).
  specialize (H ltac:(discriminate)).
  specialize (H ltac:(discriminate)).
  destruct H as (_ & _ & H2 & _ & H4 & _).
  split; [exact H2 | exact H4].
Defined.

(** C4, as the code has it: [handleConfirmStatusChange] takes no task
    identifier and makes no check.  It always writes the slot's [newStatus]
    and a fresh [updatedAt] into the tasks whose [id] is the slot's [taskId]
    and resets the slot.  With nothing pending (the slot in its reset state)
    and no task with the empty identifier, the collection is unchanged.  With
    a cancellation pending for a task, the commit goes through whatever the
    task's status has become in between. *)
Theorem handleConfirmStatusChange_unchecked (now : Date) (st : View) :
  snd (handleConfirmStatusChange Dashboard_onTaskUpdate now st)
    = {| tasks :=
           handleTaskUpdate (taskId (confirmModal st))
             (Partial.status_updatedAt (newStatus (confirmModal st)) now)
             (tasks st);
         confirmModal := confirmModal_reset |} /\
  (confirmModal st = confirmModal_reset ->
   findTask "" (tasks st) = None ->
   handleConfirmStatusChange Dashboard_onTaskUpdate now st = (undefined, st)) /\
  (forall i task now0 target st0,
     findTask i (tasks st0) = Some task -> status task <> CANCELLED ->
     target <> CANCELLED ->
     st = snd (handleStatusChange Dashboard_onTaskUpdate now0 i target
                 (snd (handleStatusChange Dashboard_onTaskUpdate now0 i
                         CANCELLED st0))) ->
     exists task',
       findTask i (tasks st) = Some task' /\ status task' = target /\
       findTask i
         (tasks (snd (handleConfirmStatusChange Dashboard_onTaskUpdate now
                        st)))
       = Some (spread task' (Partial.status_updatedAt CANCELLED now))).
Proof.
  split; [reflexivity | split].
  - intros Hm Hnone. unfold handleConfirmStatusChange. rewrite Hm. simpl.
    rewrite handleTaskUpdate_no_match by now apply findTask_none.
    destruct st as [ts m]. simpl in *. now subst m.
  - intros i task now0 target st0 Hf Hs Ht ->.
    rewrite (@handleStatusChange_cancel Dashboard_onTaskUpdate now0 i task st0
               Hf Hs).
    cbn [snd].
    rewrite (@handleStatusChange_direct _ _ _ _ task) by assumption.
    cbn [snd call_onTaskUpdate Dashboard_onTaskUpdate tasks confirmModal
         handleConfirmStatusChange setConfirmModal taskId newStatus].
    assert (H1 : findTask i
                   (handleTaskUpdate i (Partial.status_updatedAt target now0)
                      (tasks st0))
                 = Some (spread task (Partial.status_updatedAt target now0)))
      by now apply findTask_handleTaskUpdate_same.
    exists (spread task (Partial.status_updatedAt target now0)).
    repeat split.
    + exact H1.
    + now apply findTask_handleTaskUpdate_same.
Qed.

Lemma handleConfirmStatusChange_unchecked_witness :
  let st0 := {| tasks := [sampleTask "b" TODO];
                confirmModal := confirmModal_reset |} in
  let st :=
    snd (handleStatusChange Dashboard_onTaskUpdate 2000 "b" IN_PROGRESS
           (snd (handleStatusChange Dashboard_onTaskUpdate 2000 "b" CANCELLED
                   st0))) in
  handleConfirmStatusChange Dashboard_onTaskUpdate 3000 st0
    = (undefined, st0) /\
  exists task',
    findTask "b" (tasks st) = Some task' /\ status task' = IN_PROGRESS /\
    findTask "b"
      (tasks (snd (handleConfirmStatusChange Dashboard_onTaskUpdate 3000 st)))
    = Some (spread task' (Partial.status_updatedAt CANCELLED 3000)).
Proof.
  split.
  - exact (proj1 (proj2 (handleConfirmStatusChange_unchecked 3000
                           {| tasks := [sampleTask "b" TODO];
                              confirmModal := confirmModal_reset |}))
             eq_refl eq_refl).
  - refine (proj2 (proj2 (handleConfirmStatusChange_unchecked 3000 _))
              "b" (sampleTask "b" TODO) 2000%Z IN_PROGRESS
              {| tasks := [sampleTask "b" TODO];
                 confirmModal := confirmModal_reset |} eq_refl _ _ eq_refl);
      discriminate.
Defined.

(** C4 as stated fails.  A cancellation of "b" is requested, then "b" is
    moved to IN_PROGRESS while the request is pending, then the request is
    confirmed: the stale request is committed, "b" ends CANCELLED and the
    collection has changed.  Confirming again, with nothing pending, is not
    rejected either: it returns the same [undefined]. *)
Lemma handleConfirmStatusChange_commits_stale :
  let st0 := {| tasks := [sampleTask "b" TODO];
                confirmModal := confirmModal_reset |} in
  let s1 := snd (handleStatusChange Dashboard_onTaskUpdate 2000 "b" CANCELLED
                   st0) in
  let s2 := snd (handleStatusChange Dashboard_onTaskUpdate 2500 "b"
                   IN_PROGRESS s1) in
  let s3 := snd (handleConfirmStatusChange Dashboard_onTaskUpdate 3000 s2) in
  option_map status (findTask "b" (tasks s2)) = Some IN_PROGRESS /\
  pending (confirmModal s2) = [("b", CANCELLED)] /\
  option_map status (findTask "b" (tasks s3)) = Some CANCELLED /\
  tasks s3 <> tasks s2 /\
  fst (handleConfirmStatusChange Dashboard_onTaskUpdate 3500 s3)
    = fst (handleConfirmStatusChange Dashboard_onTaskUpdate 3000 s2).
Proof.
  cbv zeta. repeat split; try reflexivity. vm_compute. discriminate.
Qed.

(** The confirm button of the modal runs [onConfirm] and then [onClose]; the
    second reset changes nothing, so the click is [handleConfirmStatusChange]
    itself. *)
Lemma ConfirmationModal_handleConfirm_eq (onTaskUpdate : OnTaskUpdate)
    (now : Date) (st : View) :
  ConfirmationModal_handleConfirm onTaskUpdate now st
  = handleConfirmStatusChange onTaskUpdate now st.
Proof. reflexivity. Qed.

(** The status select of a CANCELLED task offers CANCELLED alone; every other
    task is offered all four statuses. *)
Lemma getAvailableStatuses_spec (s : TaskStatus) :
  getAvailableStatuses s
  = match s with
    | CANCELLED => [CANCELLED]
    | _ => [TODO; IN_PROGRESS; COMPLETED; CANCELLED]
    end.
Proof. now destruct s. Qed.

(** * Properties of the summary *)

Lemma filter_isActive_idem (ts : list Task) :
  filter isActive (filter isActive ts) = filter isActive ts.
Proof.
  induction ts as [|t ts IH]; simpl; [reflexivity|].
  destruct (isActive t) eqn:E; simpl; [rewrite E; f_equal|]; exact IH.
Qed.

Lemma isActive_iff (t : Task) :
  isActive t = true <-> status t = TODO \/ status t = IN_PROGRESS.
Proof. unfold isActive. destruct (status t); simpl; intuition congruence. Qed.

Lemma isActive_false_iff (t : Task) :
  isActive t = false <-> status t = COMPLETED \/ status t = CANCELLED.
Proof. unfold isActive. destruct (status t); simpl; intuition congruence. Qed.

Lemma length_eqb_0 {A} (l : list A) : (length l =? 0)%nat = true <-> l = [].
Proof. destruct l; simpl; split; congruence. Qed.

Lemma or_else_defaultFailure (m : option string) :
  truthy (Some (or_else m defaultFailure)) = true.
Proof.
  unfold or_else, truthy. destruct m as [s|]; [|reflexivity].
  destruct (s =? "")%string eqn:E; [reflexivity | now rewrite E].
Qed.

Section SummaryFacts.
Variable post : Payload -> Settled ResponseData.

(** [getAISummary] on a list with no active task: the guard throws before
    any request. *)
Lemma getAISummary_guard (ts : list Task) (s : Dashboard.t) :
  filter isActive ts = [] ->
  getAISummary post ts s = mkRun s [] (Thrown noActiveTasksError).
Proof. intros H. unfold getAISummary. now rewrite H. Qed.

(** [getAISummary] on a list with an active task: one request, whose body is
    the projection of the active tasks; the promise settles as the request
    does. *)
Lemma getAISummary_request (ts : list Task) (s : Dashboard.t) :
  filter isActive ts <> [] ->
  getAISummary post ts s
  = mkRun s [map project (filter isActive ts)]
      (match post (map project (filter isActive ts)) with
       | Fulfilled response => Fulfilled (summary response)
       | Thrown e => Thrown e
       end).
Proof.
  intros H. unfold getAISummary.
  destruct (length (filter isActive ts) =? 0)%nat eqn:E.
  - apply length_eqb_0 in E. contradiction.
  - unfold bind, taskApi_post, ret. simpl.
    destruct (post (map project (filter isActive ts))); reflexivity.
Qed.

(** The three ways [handleAISummary] ends. *)
Lemma handleAISummary_run (s : Dashboard.t) :
  let ts := Dashboard.tasks s in
  let payload := map project (filter isActive ts) in
  let done (a e : option string) :=
    Dashboard.mk ts (Dashboard.isAddTaskModalOpen s) true a false e in
  handleAISummary post s
  = match filter isActive ts with
    | [] => mkRun (done (Some emptyNotice) None) [] (Fulfilled tt)
    | _ :: _ =>
        match post payload with
        | Fulfilled response =>
            mkRun (done (summary response) None) [payload] (Fulfilled tt)
        | Thrown e =>
            mkRun (done (Some "")
                     (Some (or_else (message e) defaultFailure)))
              [payload] (Fulfilled tt)
        end
    end.
Proof.
  cbv zeta. unfold handleAISummary.
  unfold bind at 1 2 3 4. cbn -[getAISummary filter].
  unfold tryCatchFinally, bind at 1, readTasks. cbn -[getAISummary filter].
  destruct (filter isActive (Dashboard.tasks s)) as [|t l] eqn:Ef.
  - reflexivity.
  - cbn [length Nat.eqb]. unfold bind.
    rewrite <- Ef. rewrite getAISummary_request.
    2:{ rewrite filter_isActive_idem, Ef. discriminate. }
    rewrite filter_isActive_idem. cbn.
    destruct (post (map project (filter isActive (Dashboard.tasks s))));
      reflexivity.
Qed.

Lemma filter_isActive_nil (ts : list Task) :
  filter isActive ts = [] <->
  (forall t, In t ts -> status t = COMPLETED \/ status t = CANCELLED).
Proof.
  split.
  - intros H t Hin. apply isActive_false_iff.
    destruct (isActive t) eqn:E; [|reflexivity].
    assert (Hf : In t (filter isActive ts)) by (apply filter_In; auto).
    rewrite H in Hf. contradiction.
  - induction ts as [|t ts IH]; simpl; intros H; [reflexivity|].
    rewrite (proj2 (isActive_false_iff t)) by (apply H; now left).
    apply IH. intros t' Ht'. apply H. now right.
Qed.

Lemma or_else_empty (a : option string) :
  or_else a "" = match a with Some s => s | None => "" end.
Proof.
  destruct a as [s|]; simpl; [|reflexivity].
  destruct (s =? "")%string eqn:E; [|reflexivity].
  apply String.eqb_eq in E. now subst.
Qed.

Lemma project_withInternals (i : string) (c u : Date) (t : Task) :
  project (withInternals i c u t) = project t.
Proof. reflexivity. Qed.

(** The request body does not depend on [id], [createdAt] or [updatedAt]. *)
Lemma payload_ignores_internals (g : Task -> Task) (ts : list Task) :
  (forall t, exists i c u, g t = withInternals i c u t) ->
  map project (filter isActive (map g ts)) = map project (filter isActive ts).
Proof.
  intros Hg. induction ts as [|t ts IH]; simpl; [reflexivity|].
  destruct (Hg t) as (i & c & u & E). rewrite E.
  change (isActive (withInternals i c u t)) with (isActive t).
  destruct (isActive t); simpl; [f_equal|]; exact IH.
Qed.

(** C2: on a collection whose tasks are all COMPLETED or CANCELLED, whatever
    its size, [handleAISummary] sends no request, settles normally, stores the
    fixed notice as the summary and leaves [summaryError] null: the modal
    shows the notice in its summary panel, not in its error panel. *)
Theorem handleAISummary_nothing_active (s : Dashboard.t) :
  (forall t, In t (Dashboard.tasks s) ->
             status t = COMPLETED \/ status t = CANCELLED) ->
  let r := handleAISummary post s in
  requests r = [] /\
  settled r = Fulfilled tt /\
  Dashboard.aiSummary (final r) = Some emptyNotice /\
  Dashboard.summaryError (final r) = None /\
  Dashboard.tasks (final r) = Dashboard.tasks s /\
  AISummaryModal (final r) = [SummaryPanel emptyNotice].
Proof.
  intros H. apply filter_isActive_nil in H. cbv zeta.
  rewrite handleAISummary_run. cbv zeta. rewrite H.
  repeat split.
Qed.

(** C6: on a collection with at least one TODO or IN_PROGRESS task, the one
    request of [getAISummary] (and of [handleAISummary], which calls it)
    carries the projections of exactly the active tasks, in order: no record
    of it is COMPLETED or CANCELLED; a record holds the task's title, its
    description or the empty string, its priority, status and due date; and
    the body is the same whatever the tasks' [id], [createdAt] and
    [updatedAt] are. *)
Theorem getAISummary_payload (s : Dashboard.t) :
  let ts := Dashboard.tasks s in
  let payload := map project (filter isActive ts) in
  (exists t, In t ts /\ (status t = TODO \/ status t = IN_PROGRESS)) ->
  (requests (getAISummary post ts s) = [payload] /\
   requests (handleAISummary post s) = [payload]) /\
  (forall r, In r payload <->
             exists t, In t ts /\
                       (status t = TODO \/ status t = IN_PROGRESS) /\
                       r = project t) /\
  (forall r, In r payload ->
             TaskData.status r <> COMPLETED /\
             TaskData.status r <> CANCELLED) /\
  (forall t,
     TaskData.title (project t) = title t /\
     TaskData.description (project t)
       = match description t with Some d => d | None => "" end /\
     TaskData.priority (project t) = priority t /\
     TaskData.status (project t) = status t /\
     TaskData.dueDate (project t) = dueDate t) /\
  (forall g : Task -> Task,
     (forall t, exists i c u, g t = withInternals i c u t) ->
     requests (getAISummary post (map g ts) s) = [payload]).
Proof.
  cbv zeta. intros (t0 & Hin0 & Hs0).
  assert (Hne : filter isActive (Dashboard.tasks s) <> []).
  { intros E. assert (Hf : In t0 (filter isActive (Dashboard.tasks s))).
    { apply filter_In. split; [exact Hin0 | now apply isActive_iff]. }
    rewrite E in Hf. contradiction. }
  assert (Hmem : forall r,
            In r (map project (filter isActive (Dashboard.tasks s))) <->
            exists t, In t (Dashboard.tasks s) /\
                      (status t = TODO \/ status t = IN_PROGRESS) /\
                      r = project t).
  { intros r. rewrite in_map_iff. split.
    - intros (t & <- & Ht). apply filter_In in Ht. destruct Ht as [Hi Ha].
      exists t. rewrite <- isActive_iff. auto.
    - intros (t & Hi & Ha & ->). exists t. split; [reflexivity|].
      apply filter_In. rewrite isActive_iff. auto. }
  split; [split|split; [exact Hmem|split; [|split]]].
  - now rewrite getAISummary_request.
  - rewrite handleAISummary_run. cbv zeta.
    destruct (filter isActive (Dashboard.tasks s)) eqn:E; [contradiction|].
    rewrite <- E.
    destruct (post (map project (filter isActive (Dashboard.tasks s))));
      reflexivity.
  - intros r Hr. apply Hmem in Hr. destruct Hr as (t & _ & Ha & ->).
    simpl. destruct Ha as [-> | ->]; split; discriminate.
  - intros t. repeat split. simpl. apply or_else_empty.
  - intros g Hg. rewrite getAISummary_request.
    + simpl. now rewrite payload_ignores_internals.
    + intros E. apply Hne.
      apply (f_equal (map project)) in E.
      rewrite payload_ignores_internals in E by exact Hg.
      now apply map_eq_nil in E.
Qed.

(** C7, as the code has it: when the request for the summary is rejected (an
    exception, a network failure, a timeout of the transport),
    [handleAISummary] still settles normally, with [summaryError] set to the
    error's message, or to the fixed default when the message is missing or
    empty, and shown in the error panel; the task collection is never
    touched.  A response that arrives is not inspected: its [summary], be it
    empty or missing, is stored and [summaryError] stays null. *)
Theorem handleAISummary_request_outcomes (s : Dashboard.t) :
  let payload := map project (filter isActive (Dashboard.tasks s)) in
  let r := handleAISummary post s in
  filter isActive (Dashboard.tasks s) <> [] ->
  (settled r = Fulfilled tt /\
   Dashboard.tasks (final r) = Dashboard.tasks s /\
   Dashboard.isSummaryLoading (final r) = false /\
   requests r = [payload]) /\
  (forall e, post payload = Thrown e ->
     Dashboard.summaryError (final r)
       = Some (or_else (message e) defaultFailure) /\
     or_else (message e) defaultFailure <> "" /\
     AISummaryModal (final r)
       = [ErrorPanel (or_else (message e) defaultFailure)]) /\
  (forall response, post payload = Fulfilled response ->
     Dashboard.summaryError (final r) = None /\
     Dashboard.aiSummary (final r) = summary response).
Proof.
  cbv zeta. intros Hne. rewrite handleAISummary_run. cbv zeta.
  destruct (filter isActive (Dashboard.tasks s)) eqn:E; [contradiction|].
  rewrite <- E. clear E Hne.
  destruct (post (map project (filter isActive (Dashboard.tasks s))))
    as [response|e]; (split; [repeat split|split]);
    try (intros ? [= <-]); try discriminate.
  - repeat split.
  - pose proof (or_else_defaultFailure (message e)) as Ht.
    split; [reflexivity|split].
    + intros E. rewrite E in Ht. discriminate.
    + unfold AISummaryModal. cbn [Dashboard.isAISummaryModalOpen
        Dashboard.isSummaryLoading Dashboard.summaryError Dashboard.aiSummary
        final negb]. rewrite Ht. rewrite or_else_empty. reflexivity.
Qed.

(** C10: when [handleAISummary] calls [getAISummary], the list it passes is
    its own filtered list and is not empty; filtering it again changes
    nothing, so the guard of [getAISummary] is false and the call goes on to
    the request instead of throwing 'No active tasks to summarize'. *)
Theorem getAISummary_guard_not_taken (s s' : Dashboard.t) :
  let incompleteTasks := filter isActive (Dashboard.tasks s) in
  (length incompleteTasks =? 0)%nat = false ->
  filter isActive incompleteTasks = incompleteTasks /\
  (length (filter isActive incompleteTasks) =? 0)%nat = false /\
  getAISummary post incompleteTasks s'
    = (response <- taskApi_post post (map project incompleteTasks) ;;
       ret (summary response)) s' /\
  requests (getAISummary post incompleteTasks s')
    = [map project incompleteTasks] /\
  requests (handleAISummary post s) = [map project incompleteTasks].
Proof.
  cbv zeta. intros H.
  assert (Hne : filter isActive (Dashboard.tasks s) <> []).
  { intros E. rewrite E in H. discriminate. }
  split; [apply filter_isActive_idem|].
  split; [now rewrite filter_isActive_idem|].
  split; [|split].
  - unfold getAISummary. rewrite filter_isActive_idem, H. reflexivity.
  - rewrite getAISummary_request by now rewrite filter_isActive_idem.
    now rewrite filter_isActive_idem.
  - rewrite handleAISummary_run. cbv zeta.
    destruct (filter isActive (Dashboard.tasks s)) eqn:E; [contradiction|].
    rewrite <- E.
    destruct (post (map project (filter isActive (Dashboard.tasks s))));
      reflexivity.
Qed.
End SummaryFacts.

Lemma handleAISummary_nothing_active_witness :
  let s := sampleDashboard [sampleTask "a" COMPLETED;
                            sampleTask "b" CANCELLED] in
  let r := handleAISummary (failing (Error "Network Error")) s in
  requests r = [] /\
  settled r = Fulfilled tt /\
  Dashboard.aiSummary (final r) = Some emptyNotice /\
  Dashboard.summaryError (final r) = None /\
  Dashboard.tasks (final r) = Dashboard.tasks s /\
  AISummaryModal (final r) = [SummaryPanel emptyNotice].
Proof.
  apply (@handleAISummary_nothing_active (failing (Error "Network Error"))
           (sampleDashboard [sampleTask "a" COMPLETED;
                             sampleTask "b" CANCELLED])).
  intros t [<- | [<- | []]]; simpl; auto.
Defined.

Lemma getAISummary_payload_witness :
  let s := sampleDashboard [sampleTask "a" TODO; sampleTask "b" COMPLETED;
                            sampleTask "c" IN_PROGRESS] in
  requests (getAISummary (answering (Some "Two tasks are open."))
              (Dashboard.tasks s) s)
  = [[project (sampleTask "a" TODO); project (sampleTask "c" IN_PROGRESS)]].
Proof.
  refine (proj1 (proj1
    (@getAISummary_payload (answering (Some "Two tasks are open."))
       (sampleDashboard [sampleTask "a" TODO; sampleTask "b" COMPLETED;
                         sampleTask "c" IN_PROGRESS]) _))).
  exists (sampleTask "a" TODO). split; [now left | now left].
Defined.

Lemma handleAISummary_request_outcomes_witness :
  let s := sampleDashboard [sampleTask "a" TODO] in
  let r := handleAISummary (failing (Error "timeout of 5000ms exceeded")) s in
  settled r = Fulfilled tt /\
  Dashboard.tasks (final r) = Dashboard.tasks s /\
  Dashboard.summaryError (final r) = Some "timeout of 5000ms exceeded".
Proof.
  pose proof (@handleAISummary_request_outcomes
                (failing (Error "timeout of 5000ms exceeded"))
                (sampleDashboard [sampleTask "a" TODO])) as H.
  cbv zeta in H. specialize (H ltac:(discriminate)).
  destruct H as ((H1 & H2 & _) & Hthrown & _).
  destruct (Hthrown (Error "timeout of 5000ms exceeded") eq_refl) as (H3 & _).
  repeat split; assumption.
Defined.

(** C7 as stated fails for a response that cannot be used: the endpoint
    answers with an empty summary, or with a body that has no summary at all,
    and [handleAISummary] reports no failure: [summaryError] stays null and
    the modal shows its no-summary panel, not its error panel. *)
Lemma handleAISummary_unusable_response_no_failure :
  let s := sampleDashboard [sampleTask "a" TODO] in
  let r1 := handleAISummary (answering (Some "")) s in
  let r2 := handleAISummary (answering None) s in
  (requests r1 = [[project (sampleTask "a" TODO)]] /\
   Dashboard.summaryError (final r1) = None /\
   Dashboard.aiSummary (final r1) = Some "" /\
   AISummaryModal (final r1) = [NoSummaryPanel]) /\
  (requests r2 = [[project (sampleTask "a" TODO)]] /\
   Dashboard.summaryError (final r2) = None /\
   Dashboard.aiSummary (final r2) = None /\
   AISummaryModal (final r2) = [NoSummaryPanel]).
Proof. repeat split. Qed.

Lemma getAISummary_guard_not_taken_witness :
  let s := sampleDashboard [sampleTask "a" TODO; sampleTask "b" CANCELLED] in
  requests (getAISummary (answering (Some "One task is open."))
              (filter isActive (Dashboard.tasks s)) s)
  = [[project (sampleTask "a" TODO)]].
Proof.
  refine (proj1 (proj2 (proj2 (proj2
    (@getAISummary_guard_not_taken (answering (Some "One task is open."))
       (sampleDashboard [sampleTask "a" TODO; sampleTask "b" CANCELLED])
       (sampleDashboard [sampleTask "a" TODO; sampleTask "b" CANCELLED])
       _))))).
  reflexivity.
Defined.

(** * The task list under sequences of events *)

Lemma map_id_handleTaskUpdate (i : string) (u : Partial.t) (ts : list Task) :
  Partial.id u = None -> map id (handleTaskUpdate i u ts) = map id ts.
Proof.
  intros Hu. unfold handleTaskUpdate. rewrite map_map. apply map_ext.
  intros t. destruct (id t =? i)%string; [now apply id_spread | reflexivity].
Qed.

Lemma map_fixedPart_handleTaskUpdate (i : string) (s : TaskStatus) (d : Date)
    (ts : list Task) :
  map fixedPart (handleTaskUpdate i (Partial.status_updatedAt s d) ts)
  = map fixedPart ts.
Proof.
  unfold handleTaskUpdate. rewrite map_map. apply map_ext.
  intros t. now destruct (id t =? i)%string.
Qed.

Lemma findTask_app (j : string) (ts l : list Task) :
  findTask j (ts ++ l)
  = match findTask j ts with
    | Some t => Some t
    | None => findTask j l
    end.
Proof.
  unfold findTask. induction ts as [|t ts IH]; simpl; [reflexivity|].
  now destruct (id t =? j)%string.
Qed.

Lemma findTask_Some (i : string) (ts : list Task) (task : Task) :
  findTask i ts = Some task -> In task ts /\ id task = i.
Proof.
  unfold findTask. intros H. apply find_some in H.
  destruct H as [Hin E]. now apply String.eqb_eq in E.
Qed.




Lemma well_formed_step (e : Event) (st : View) :
  well_formed st ->
  match e with
  | SubmitTask uuid _ _ _ => ~ In uuid (map id (tasks st))
  | _ => True
  end ->
  well_formed (step e st).
Proof.
  intros [Hnd Hslot] Hnew.
  destruct e as [now i target | now | | uuid c u data]; simpl in *.
  - unfold handleStatusChange.
    destruct (findTask i (tasks st)) as [task|] eqn:Hf; [|now split].
    destruct (TaskStatus_eqb (status task) CANCELLED) eqn:E1; [now split|].
    apply TaskStatus_eqb_neq in E1.
    destruct (TaskStatus_eqb target CANCELLED) eqn:E2.
    + apply TaskStatus_eqb_eq in E2. subst target. split; [exact Hnd|].
      intros _. simpl. split; [reflexivity|]. now exists task.
    + apply TaskStatus_eqb_neq in E2. split; simpl.
      * now rewrite map_id_handleTaskUpdate.
      * intros Ho. destruct (Hslot Ho) as (Hn & task' & Hf' & Hs').
        split; [exact Hn|]. simpl.
        destruct (String.eqb_spec (taskId (confirmModal st)) i) as [E|E].
        -- rewrite E in *.
           rewrite (@findTask_handleTaskUpdate_same i
                      (Partial.status_updatedAt target now) (tasks st) task
                      eq_refl Hf).
           eexists. split; [reflexivity|]. simpl. exact E2.
        -- rewrite findTask_handleTaskUpdate_other by auto. now exists task'.
  - destruct (isOpen (confirmModal st)) eqn:Ho; [|now split].
    split; simpl.
    + now rewrite map_id_handleTaskUpdate.
    + intros Ho'. discriminate.
  - destruct (isOpen (confirmModal st)) eqn:Ho; [|now split].
    split; simpl; [exact Hnd|]. intros Ho'. discriminate.
  - split; simpl.
    + unfold handleAddTask. rewrite map_app. simpl.
      apply NoDup_app; [exact Hnd | repeat constructor; simpl; tauto |].
      intros x Hx [<- | []]. contradiction.
    + intros Ho. destruct (Hslot Ho) as (Hn & task & Hf & Hs).
      split; [exact Hn|]. exists task. split; [|exact Hs].
      cbn [tasks confirmModal]. unfold handleAddTask.
      now rewrite findTask_app, Hf.
Qed.

(** X1: identifiers stay unique and an open confirmation slot always names a
    task of the list that is not cancelled, with CANCELLED as the requested
    status, whatever the user does, as long as every new task gets an
    identifier that is not in use. *)
Theorem well_formed_run (es : list Event) (st : View) :
  well_formed st -> uuids_fresh es st -> well_formed (run es st).
Proof.
  unfold run. revert st.
  induction es as [|e es IH]; simpl; intros st Hwf Hfresh; [exact Hwf|].
  destruct Hfresh as [Hnew Hrest]. apply IH; [|exact Hrest].
  now apply well_formed_step.
Qed.

Lemma well_formed_run_witness :
  well_formed
    (run [SubmitTask "u1" 10 10
            (CreateTaskData.mk "Write report" None high None);
          SelectStatus 20 "u1" CANCELLED;
          SubmitTask "u2" 30 31
            (CreateTaskData.mk "Call Ada" (Some "") low (Some 99%Z))]
       initialView).
Proof.
  apply well_formed_run.
  - split; [constructor | discriminate].
  - simpl. repeat split; try tauto.
    intros [E | []]. discriminate.
Defined.




(** X3: the handlers of the list write [status] and [updatedAt] and nothing
    else.  After any sequence of events the list holds the tasks it held, in
    the same order and with the same [id], [title], [description],
    [priority], [createdAt] and [dueDate], followed by the tasks that were
    added: no task is ever removed, reordered or renamed. *)
Theorem run_keeps_fixed_fields (es : list Event) (st : View) :
  map fixedPart (tasks (run es st))
  = (map fixedPart (tasks st) ++ map fixedPart (submitted es))%list.
Proof.
  unfold run. revert st.
  induction es as [|e es IH]; simpl; intros st.
  - now rewrite app_nil_r.
  - rewrite IH. unfold submitted at 2. simpl. fold (submitted es).
    rewrite map_app, app_assoc. f_equal.
    destruct e as [now i target | now | | uuid c u data]; simpl.
    + rewrite app_nil_r. unfold handleStatusChange.
      destruct (findTask i (tasks st)) as [task|]; [|reflexivity].
      destruct (TaskStatus_eqb (status task) CANCELLED); [reflexivity|].
      destruct (TaskStatus_eqb target CANCELLED); [reflexivity|].
      simpl. apply map_fixedPart_handleTaskUpdate.
    + rewrite app_nil_r.
      destruct (isOpen (confirmModal st)); [|reflexivity].
      simpl. apply map_fixedPart_handleTaskUpdate.
    + rewrite app_nil_r. now destruct (isOpen (confirmModal st)).
    + unfold handleAddTask. now rewrite map_app.
Qed.

(** X4: every status the select of a task offers can be reached.  With no
    confirmation pending, choosing an offered status, and pressing the
    confirm button (which only exists when the choice opened the modal),
    leaves the task in the chosen status. *)
Theorem offered_status_is_reached (now now' : Date) (i : string)
    (target : TaskStatus) (task : Task) (st : View) :
  isOpen (confirmModal st) = false ->
  findTask i (tasks st) = Some task ->
  In target (getAvailableStatuses (status task)) ->
  option_map status
    (findTask i (tasks (run [SelectStatus now i target; ClickConfirm now']
                          st)))
  = Some target.
Proof.
  intros Ho Hf Hin. unfold run. simpl.
  unfold handleStatusChange. rewrite Hf.
  destruct (TaskStatus_eqb (status task) CANCELLED) eqn:E1.
  - apply TaskStatus_eqb_eq in E1. rewrite E1 in Hin. simpl in Hin.
    destruct Hin as [<- | []]. simpl. rewrite Ho, Hf. simpl. now rewrite E1.
  - destruct (TaskStatus_eqb target CANCELLED) eqn:E2.
    + apply TaskStatus_eqb_eq in E2. subst target. simpl.
      rewrite (@findTask_handleTaskUpdate_same i
                 (Partial.status_updatedAt CANCELLED now') (tasks st) task
                 eq_refl Hf). reflexivity.
    + simpl. rewrite Ho. cbn [tasks].
      rewrite (@findTask_handleTaskUpdate_same i
                 (Partial.status_updatedAt target now) (tasks st) task
                 eq_refl Hf). reflexivity.
Qed.

Lemma offered_status_is_reached_witness :
  option_map status
    (findTask "b"
       (tasks (run [SelectStatus 50 "b" CANCELLED; ClickConfirm 60]
                 sampleView)))
  = Some CANCELLED.
Proof.
  apply (@offered_status_is_reached 50 60 "b" CANCELLED (sampleTask "b" TODO)
           sampleView).
  - reflexivity.
  - reflexivity.
  - simpl. tauto.
Defined.

(** X5: a new task goes to the end of the list in status TODO.  Every
    identifier that resolved to a task still resolves to the same task, even
    if the new identifier was already taken; an identifier that is new
    resolves to the new task; and the next summary request is the old one with
    the new task's record added at the end. *)
Theorem handleAddTask_appends (uuid : string) (created updated : Date)
    (taskData : CreateTaskData.t) (ts : list Task) :
  let added := newTask uuid created updated taskData in
  let ts' := handleAddTask uuid created updated taskData ts in
  (forall j, findTask j ts'
             = match findTask j ts with
               | Some t => Some t
               | None => if (uuid =? j)%string then Some added else None
               end) /\
  status added = TODO /\
  map project (filter isActive ts')
  = (map project (filter isActive ts) ++ [project added])%list.
Proof.
  cbv zeta. unfold handleAddTask. repeat split.
  - intros j. rewrite findTask_app.
    destruct (findTask j ts); reflexivity.
  - rewrite filter_app, map_app. reflexivity.
Qed.

(** * More on the summary *)

Section SummaryMore.
Variable post : Payload -> Settled ResponseData.

(** X6: the 'Summarise with AI' button is disabled exactly when
    [handleAISummary] would send nothing.  A click the button allows sends
    exactly one request, with the active tasks; a call made while the button
    is disabled sends none and ends on the fixed notice. *)
Theorem summaryButton_guards_request (s : Dashboard.t) :
  let r := handleAISummary post s in
  if summaryButton_disabled s
  then requests r = [] /\ Dashboard.aiSummary (final r) = Some emptyNotice
  else requests r = [map project (filter isActive (Dashboard.tasks s))].
Proof.
  cbv zeta. unfold summaryButton_disabled. rewrite handleAISummary_run.
  cbv zeta.
  destruct (filter isActive (Dashboard.tasks s)) as [|t l] eqn:E;
    cbn [length Nat.eqb].
  - split; reflexivity.
  - rewrite <- E.
    destruct (post (map project (filter isActive (Dashboard.tasks s))));
      reflexivity.
Qed.

(** X7: a run starts from scratch.  What [handleAISummary] leaves behind, the
    requests it sends and the way it settles depend on the tasks (and on the
    untouched add-task flag) only: the summary, the error, the loading flag
    and the modal flag of an earlier run have no influence. *)
Theorem handleAISummary_forgets_previous_run (s s' : Dashboard.t) :
  Dashboard.tasks s = Dashboard.tasks s' ->
  Dashboard.isAddTaskModalOpen s = Dashboard.isAddTaskModalOpen s' ->
  handleAISummary post s = handleAISummary post s'.
Proof.
  intros Ht Ha. rewrite !handleAISummary_run. cbv zeta.
  now rewrite Ht, Ha.
Qed.

(** X8: every run ends on exactly one result panel.  When [handleAISummary]
    has settled, the modal is open and shows the notice for an empty active
    set, the error panel for a rejected request, the summary for a response
    with a non-empty summary (the text as received), and the no-summary panel
    for any other response; it never still shows the spinner. *)
Theorem handleAISummary_final_panel (s : Dashboard.t) :
  let payload := map project (filter isActive (Dashboard.tasks s)) in
  AISummaryModal (final (handleAISummary post s))
  = match filter isActive (Dashboard.tasks s) with
    | [] => [SummaryPanel emptyNotice]
    | _ :: _ =>
        match post payload with
        | Thrown e => [ErrorPanel (or_else (message e) defaultFailure)]
        | Fulfilled response =>
            match summary response with
            | Some text =>
                if (text =? "")%string then [NoSummaryPanel]
                else [SummaryPanel text]
            | None => [NoSummaryPanel]
            end
        end
    end.
Proof.
  cbv zeta. rewrite handleAISummary_run. cbv zeta.
  destruct (filter isActive (Dashboard.tasks s)) as [|t l] eqn:E;
    [reflexivity|].
  rewrite <- E.
  destruct (post (map project (filter isActive (Dashboard.tasks s))))
    as [[[text|]]|e]; unfold AISummaryModal; simpl.
  - destruct (text =? "")%string eqn:Et; reflexivity.
  - reflexivity.
  - pose proof (or_else_defaultFailure (message e)) as Ht. simpl in Ht.
    rewrite Ht. simpl. f_equal. f_equal.
    apply (or_else_empty (Some (or_else (message e) defaultFailure))).
Qed.

(** X9: tasks that are not active play no part in [getAISummary].  Two lists
    with the same active tasks give the same request, the same result and the
    same error; in particular the service can be handed the whole list or the
    filtered one. *)
Theorem getAISummary_ignores_inactive (ts1 ts2 : list Task)
    (s : Dashboard.t) :
  filter isActive ts1 = filter isActive ts2 ->
  getAISummary post ts1 s = getAISummary post ts2 s /\
  getAISummary post (filter isActive ts1) s = getAISummary post ts1 s /\
  final (getAISummary post ts1 s) = s.
Proof.
  intros H. unfold getAISummary. rewrite filter_isActive_idem, H.
  repeat split.
  destruct (length (filter isActive ts2) =? 0)%nat; [reflexivity|].
  unfold bind, taskApi_post, ret. simpl.
  destruct (post (map project (filter isActive ts2))); reflexivity.
Qed.
End SummaryMore.

Lemma handleAISummary_forgets_previous_run_witness :
  handleAISummary (failing (Error "Network Error"))
    (sampleDashboard [sampleTask "a" TODO])
  = handleAISummary (failing (Error "Network Error"))
      (Dashboard.mk [sampleTask "a" TODO] false true (Some "old summary")
         false (Some "old error")).
Proof.
  apply handleAISummary_forgets_previous_run; reflexivity.
Defined.

Lemma getAISummary_ignores_inactive_witness :
  getAISummary (answering (Some "One task is open."))
    [sampleTask "a" TODO; sampleTask "b" CANCELLED]
    (sampleDashboard [])
  = getAISummary (answering (Some "One task is open."))
      [sampleTask "c" COMPLETED; sampleTask "a" TODO]
      (sampleDashboard []).
Proof.
  refine (proj1 (@getAISummary_ignores_inactive
                   (answering (Some "One task is open."))
                   [sampleTask "a" TODO; sampleTask "b" CANCELLED]
                   [sampleTask "c" COMPLETED; sampleTask "a" TODO]
                   (sampleDashboard []) _)).
  reflexivity.
Defined.

(** * The add-task form *)

Section AddTaskFacts.
Variable trim : string -> string.

(** X10: the form never creates a task with a blank title.  If every task of
    the list has a title that [trim] does not empty, this is still so after a
    submission of the form, whatever the form holds. *)
Theorem submitForm_keeps_titles_nonblank (uuid : string)
    (created updated : Date) (card : AddTaskCard) (d : Dashboard.t) :
  Forall (fun t => trim (title t) <> "") (Dashboard.tasks d) ->
  Forall (fun t => trim (title t) <> "")
    (Dashboard.tasks
       (snd (Dashboard_submitForm trim uuid created updated card d))).
Proof.
  intros H. unfold Dashboard_submitForm, AddTaskCard_handleSubmit.
  destruct (trim (CreateTaskData.title (formData card)) =? "")%string eqn:E.
  - exact H.
  - simpl. unfold handleAddTask. apply Forall_app. split; [exact H|].
    constructor; [|constructor]. simpl. now apply String.eqb_neq.
Qed.

(** X11: submitting twice adds one task.  A submission that goes through
    resets the form to an empty title, so, [trim] giving the empty string on
    the empty string, a second submission made from the state the first one
    left does nothing; after a submission that was refused for a blank title
    the second one is refused as well. *)
Theorem submitForm_twice (uuid uuid' : string)
    (created updated created' updated' : Date) (card : AddTaskCard)
    (d : Dashboard.t) :
  trim "" = "" ->
  let once := Dashboard_submitForm trim uuid created updated card d in
  Dashboard_submitForm trim uuid' created' updated' (fst once) (snd once)
  = once.
Proof.
  intros Ht. cbv zeta.
  unfold Dashboard_submitForm, AddTaskCard_handleSubmit.
  destruct (trim (CreateTaskData.title (formData card)) =? "")%string eqn:E.
  - simpl. now rewrite E.
  - simpl. now rewrite Ht.
Qed.
End AddTaskFacts.

Lemma submitForm_keeps_titles_nonblank_witness :
  Forall (fun t => sampleTrim (title t) <> "")
    (Dashboard.tasks
       (snd (Dashboard_submitForm sampleTrim "u9" 40 40
               (mkAddTaskCard
                  (CreateTaskData.mk "  Call Ada " (Some "") high None) false)
               (sampleDashboard [sampleTask "a" TODO])))).
Proof.
  apply submitForm_keeps_titles_nonblank.
  repeat constructor. simpl. discriminate.
Defined.

Lemma submitForm_twice_witness :
  let once :=
    Dashboard_submitForm sampleTrim "u9" 40 40
      (mkAddTaskCard (CreateTaskData.mk "Call Ada" (Some "") high None) false)
      (sampleDashboard []) in
  Dashboard_submitForm sampleTrim "u10" 41 41 (fst once) (snd once) = once /\
  length (Dashboard.tasks (snd once)) = 1%nat.
Proof.
  split.
  - apply (@submitForm_twice sampleTrim "u9" "u10" 40 40 41 41). reflexivity.
  - reflexivity.
Defined.

(** * Authentication and routes *)

Module AuthFacts.
Import Auth.

Lemma authReducer_coherent (s : AuthState) (a : AuthAction) :
  coherent s -> coherent (authReducer s a).
Proof.
  unfold coherent. destruct a; simpl; auto.
Qed.

(** X12: the reducer keeps [user], [token] and [isAuthenticated] in step.
    From the initial state, after any sequence of actions, the state is
    authenticated exactly when it holds a user, and holds a token exactly
    when it holds a user. *)
Theorem authReducer_keeps_coherent (actions : list AuthAction) :
  let s := fold_left authReducer actions initialState in
  coherent s /\
  (isAuthenticated s = true <-> user s <> None) /\
  (user s = None <-> token s = None).
Proof.
  cbv zeta.
  assert (H : coherent (fold_left authReducer actions initialState)).
  { assert (H0 : coherent initialState) by exact I.
    revert H0. generalize initialState.
    induction actions as [|a l IH]; simpl; intros s Hs; [exact Hs|].
    apply IH. now apply authReducer_coherent. }
  split; [exact H|]. unfold coherent in H.
  destruct (user _), (token _), (isAuthenticated _); try contradiction;
    repeat split; intros; try congruence; try discriminate.
Qed.

(** X13: redirects settle, and the dashboard is for authenticated users
    only.  From any matched location, following at most two redirects ends
    on the spinner while the state is loading, on the dashboard when it is
    authenticated, and otherwise on the signup page when that was asked for
    and on the login page in every other case; following more redirects
    changes nothing. *)
Theorem routes_settle (s : AuthState) (l : Location) (n : nat) :
  settle (2 + n) s l = settle 2 s l /\
  settle 2 s l
  = match l with
    | NoMatch => (NoMatch, Blank)
    | _ =>
        if isLoading s then
          (match l with RootPath => DashboardPath | _ => l end, Spinner)
        else if isAuthenticated s then (DashboardPath, DashboardPage)
        else match l with
             | SignupPath => (SignupPath, SignupPage)
             | _ => (LoginPath, LoginPage)
             end
    end.
Proof.
  destruct l, (isLoading s) eqn:El, (isAuthenticated s) eqn:Ea;
    simpl; unfold ProtectedRoute, PublicRoute; rewrite ?El, ?Ea; simpl;
    unfold ProtectedRoute, PublicRoute; rewrite ?El, ?Ea; simpl;
    unfold ProtectedRoute, PublicRoute; rewrite ?El, ?Ea; simpl;
    auto;
    destruct n; simpl; unfold ProtectedRoute, PublicRoute;
    rewrite ?El, ?Ea; auto.
Qed.

Lemma getItem_setItem_same (k v : string) (ls : Storage) :
  getItem k (setItem k v ls) = Some v.
Proof. unfold getItem, setItem. now rewrite String.eqb_refl. Qed.

Lemma getItem_setItem_other (k k' v : string) (ls : Storage) :
  k <> k' -> getItem k (setItem k' v ls) = getItem k ls.
Proof.
  intros H. unfold getItem, setItem. apply String.eqb_neq in H.
  now rewrite H.
Qed.

Lemma getItem_removeItem_other (k k' : string) (ls : Storage) :
  k <> k' -> getItem k (removeItem k' ls) = getItem k ls.
Proof.
  intros H. unfold getItem, removeItem. apply String.eqb_neq in H.
  now rewrite H.
Qed.

Lemma getItem_responseInterceptor (k : string) (f : Failure) (ls : Storage) :
  k <> "access_token" -> k <> "user" ->
  getItem k (responseInterceptor f ls) = getItem k ls.
Proof.
  intros H1 H2. destruct f as [status d|]; simpl; [|reflexivity].
  destruct (status =? 401)%Z; [|reflexivity].
  now rewrite !getItem_removeItem_other.
Qed.

Lemma truthy_or_else (a : option string) :
  truthy a = true -> Some (or_else a "") = a.
Proof.
  destruct a as [t|]; simpl; [|discriminate].
  destruct (t =? "")%string; [discriminate | reflexivity].
Qed.

Section ProviderFacts.
Variable stringify : UserResponse.t -> string.
Variable parse : string -> option UserResponse.t.

(** A key that is neither 'access_token' nor 'user' is never written. *)
Lemma apply_other_keys (k : string) (o : Op) (p : Provider) :
  k <> "access_token" -> k <> "user" ->
  getItem k (storage (apply stringify parse o p)) = getItem k (storage p).
Proof.
  intros H1 H2. destruct o as [|res|res| |res]; simpl.
  - unfold initializeAuth.
    destruct (authService_getStoredUser parse (storage p)); [|reflexivity].
    now destruct (truthy (authService_getToken (storage p))).
  - unfold signup, authenticate, authService_signup, storeSession.
    destruct res as [data|f]; simpl.
    + now rewrite !getItem_setItem_other.
    + now apply getItem_responseInterceptor.
  - unfold login, authenticate, authService_login, storeSession.
    destruct res as [data|f]; simpl.
    + now rewrite !getItem_setItem_other.
    + now apply getItem_responseInterceptor.
  - unfold authService_logout. now rewrite !getItem_removeItem_other.
  - unfold refreshUser, authService_getCurrentUser.
    destruct res as [data|f]; simpl.
    + now destruct (truthy (authService_getToken (storage p))).
    + now apply getItem_responseInterceptor.
Qed.

(** X14: the task service looks for the token under a key nobody writes.
    Signing up, logging in, logging out, refreshing and mounting never touch
    the key 'token' that the request interceptor of [taskApi] reads, so the
    [Authorization] header of the task and summary requests is after any of
    them what it was before; the key they write, 'access_token', is read by
    [apiClient] only. *)
Theorem taskApi_header_unaffected (os : list Op) (p : Provider) :
  taskApi_Authorization (storage (applyAll stringify parse os p))
  = taskApi_Authorization (storage p).
Proof.
  unfold taskApi_Authorization, applyAll. revert p.
  induction os as [|o os IH]; simpl; intros p; [reflexivity|].
  rewrite IH. f_equal. apply apply_other_keys; discriminate.
Qed.

Lemma apply_token_stored (o : Op) (p : Provider) :
  token_stored p -> token_stored (apply stringify parse o p).
Proof.
  unfold token_stored. intros Hp.
  destruct o as [|res|res| |res]; simpl.
  - unfold initializeAuth.
    destruct (authService_getStoredUser parse (storage p));
      [|simpl; discriminate].
    destruct (truthy (authService_getToken (storage p))) eqn:Et;
      simpl; [|discriminate].
    intros _. now apply truthy_or_else.
  - unfold signup, authenticate, authService_signup, storeSession.
    destruct res as [data|f]; simpl; [|discriminate].
    intros _. unfold authService_getToken.
    rewrite getItem_setItem_other by discriminate.
    now rewrite getItem_setItem_same.
  - unfold login, authenticate, authService_login, storeSession.
    destruct res as [data|f]; simpl; [|discriminate].
    intros _. unfold authService_getToken.
    rewrite getItem_setItem_other by discriminate.
    now rewrite getItem_setItem_same.
  - discriminate.
  - unfold refreshUser, authService_getCurrentUser.
    destruct res as [data|f]; simpl; [|discriminate].
    destruct (truthy (authService_getToken (storage p))) eqn:Et; simpl.
    + intros _. now apply truthy_or_else.
    + exact Hp.
Qed.

(** X15: the context never claims a session the storage does not have.
    Starting from the initial state over any storage, after any sequence of
    mounts, signups, logins, logouts and refreshes, with any server answers:
    if the state is authenticated, its token is the one stored under
    'access_token', which is the one [apiClient] sends as the bearer. *)
Theorem provider_token_is_stored (os : list Op) (ls : Storage) :
  let p := applyAll stringify parse os
             {| state := initialState; storage := ls |} in
  isAuthenticated (state p) = true ->
  token (state p) = authService_getToken (storage p) /\
  apiClient_Authorization (storage p) = bearer (token (state p)).
Proof.
  cbv zeta.
  assert (H : token_stored (applyAll stringify parse os
                              {| state := initialState; storage := ls |})).
  { assert (H0 : token_stored {| state := initialState; storage := ls |})
      by (unfold token_stored; simpl; discriminate).
    revert H0. generalize {| state := initialState; storage := ls |}.
    unfold applyAll.
    induction os as [|o l IH]; simpl; intros p Hp; [exact Hp|].
    apply IH. now apply apply_token_stored. }
  intros Ha. specialize (H Ha). split; [exact H|].
  unfold apiClient_Authorization. now rewrite H.
Qed.
End ProviderFacts.

End AuthFacts.

Lemma provider_token_is_stored_witness :
  let p := Auth.applyAll Auth.sampleStringify Auth.sampleParse
             [Auth.Mount; Auth.Login (Auth.HttpOk Auth.sampleSession);
              Auth.RefreshUser (Auth.HttpOk Auth.sampleUser)]
             {| Auth.state := Auth.initialState;
                Auth.storage := Auth.emptyStorage |} in
  Auth.token (Auth.state p) = Auth.authService_getToken (Auth.storage p) /\
  Auth.apiClient_Authorization (Auth.storage p)
  = Auth.bearer (Auth.token (Auth.state p)).
Proof.
  apply (@AuthFacts.provider_token_is_stored Auth.sampleStringify
           Auth.sampleParse
           [Auth.Mount; Auth.Login (Auth.HttpOk Auth.sampleSession);
            Auth.RefreshUser (Auth.HttpOk Auth.sampleUser)]
           Auth.emptyStorage).
  reflexivity.
Defined.

Module SessionFacts.
Import Auth.

Section Sessions.
Variable stringify : UserResponse.t -> string.
Variable parse : string -> option UserResponse.t.

(** X16: logging out ends the session everywhere.  Whatever the provider
    held, after [logout] the state is the logged-out state, the two items
    'access_token' and 'user' are gone and no other item has changed,
    [apiClient] sends no bearer, a reload of the page finds no session, and
    no location leads to the dashboard. *)
Theorem logout_ends_session (p : Provider) :
  let p' := logout p in
  state p' = loggedOut /\
  (forall k, getItem k (storage p')
             = if (k =? "access_token")%string || (k =? "user")%string
               then None else getItem k (storage p)) /\
  apiClient_Authorization (storage p') = None /\
  authService_getStoredUser parse (storage p') = None /\
  initializeAuth parse p' = p' /\
  (forall l, snd (settle 2 (state p') l) <> DashboardPage).
Proof.
  cbv zeta. unfold logout, authService_logout. simpl.
  split; [reflexivity|]. split; [|split; [|split; [|split]]].
  - intros k. unfold getItem, removeItem.
    destruct (k =? "user")%string, (k =? "access_token")%string; reflexivity.
  - reflexivity.
  - reflexivity.
  - reflexivity.
  - intros l. destruct l; simpl; discriminate.
Qed.

(** X17: a reload after a successful login restores the session.  When the
    server answers the login with a non-empty token and a user that
    [JSON.parse] reads back from what [JSON.stringify] wrote, a provider
    mounted on the storage the login left reaches the very state the login
    reached: the same user and token, authenticated, not loading; and
    [apiClient] sends that token as the bearer. *)
Theorem reload_restores_session (data : TokenResponse.t) (p : Provider) :
  TokenResponse.access_token data <> "" ->
  stringify (TokenResponse.user data) <> "" ->
  parse (stringify (TokenResponse.user data))
    = Some (TokenResponse.user data) ->
  let p1 := fst (login stringify (HttpOk data) p) in
  state (initializeAuth parse
           {| state := initialState; storage := storage p1 |})
    = state p1 /\
  state p1 = {| user := Some (TokenResponse.user data);
                token := Some (TokenResponse.access_token data);
                isAuthenticated := true; isLoading := false |} /\
  apiClient_Authorization (storage p1)
    = Some ("Bearer " ++ TokenResponse.access_token data).
Proof.
  intros Ht Hs Hp. cbv zeta.
  unfold login, authenticate, authService_login, storeSession. simpl.
  apply String.eqb_neq in Ht, Hs.
  unfold initializeAuth, authService_getStoredUser, authService_getToken,
    apiClient_Authorization, bearer, getItem, setItem. simpl.
  rewrite Hs, Ht. simpl. rewrite Hp. simpl.
  repeat split.
Qed.

(** X18: only one path leaves the application loading.  Mounting, signing
    up, logging in and logging out always end with [isLoading] false,
    whatever the server answers, and so does a refresh that fails; a refresh
    that succeeds ends loading exactly when no non-empty token is stored, and
    then every guarded route shows the spinner. *)
Theorem isLoading_after (o : Op) (p : Provider) :
  let p' := apply stringify parse o p in
  isLoading (state p')
  = match o with
    | RefreshUser (HttpOk _) =>
        negb (truthy (authService_getToken (storage p)))
    | _ => false
    end /\
  (isLoading (state p') = true ->
   AppRoutes (state p') DashboardPath = Spinner /\
   AppRoutes (state p') LoginPath = Spinner /\
   AppRoutes (state p') SignupPath = Spinner).
Proof.
  cbv zeta. split.
  - destruct o as [|res|res| |res]; simpl.
    + unfold initializeAuth.
      destruct (authService_getStoredUser parse (storage p)); [|reflexivity].
      now destruct (truthy (authService_getToken (storage p))).
    + unfold signup, authenticate, authService_signup, storeSession.
      now destruct res.
    + unfold login, authenticate, authService_login, storeSession.
      now destruct res.
    + reflexivity.
    + unfold refreshUser, authService_getCurrentUser.
      destruct res as [data|f]; simpl; [|reflexivity].
      now destruct (truthy (authService_getToken (storage p))).
  - intros H. unfold AppRoutes, ProtectedRoute, PublicRoute.
    now rewrite H.
Qed.

End Sessions.

End SessionFacts.

Lemma reload_restores_session_witness :
  let p1 := fst (Auth.login Auth.sampleStringify
                   (Auth.HttpOk Auth.sampleSession)
                   {| Auth.state := Auth.loggedOut;
                      Auth.storage := Auth.emptyStorage |}) in
  Auth.state (Auth.initializeAuth Auth.sampleParse
                {| Auth.state := Auth.initialState;
                   Auth.storage := Auth.storage p1 |})
  = Auth.state p1.
Proof.
  refine (proj1 (@SessionFacts.reload_restores_session Auth.sampleStringify
                   Auth.sampleParse Auth.sampleSession
                   {| Auth.state := Auth.loggedOut;
                      Auth.storage := Auth.emptyStorage |} _ _ _)).
  - discriminate.
  - discriminate.
  - reflexivity.
Defined.

Lemma isLoading_after_witness :
  let p' := Auth.apply Auth.sampleStringify Auth.sampleParse
              (Auth.RefreshUser (Auth.HttpOk Auth.sampleUser))
              {| Auth.state := Auth.loggedOut;
                 Auth.storage := Auth.emptyStorage |} in
  Auth.AppRoutes (Auth.state p') Auth.DashboardPath = Auth.Spinner.
Proof.
  refine (proj1 (proj2 (@SessionFacts.isLoading_after Auth.sampleStringify
                          Auth.sampleParse
                          (Auth.RefreshUser (Auth.HttpOk Auth.sampleUser))
                          {| Auth.state := Auth.loggedOut;
                             Auth.storage := Auth.emptyStorage |}) _)).
  reflexivity.
Defined.

(** * Status changes composed *)

Lemma handleTaskUpdate_overwrites (i : string) (s1 s2 : TaskStatus)
    (d1 d2 : Date) (ts : list Task) :
  handleTaskUpdate i (Partial.status_updatedAt s2 d2)
    (handleTaskUpdate i (Partial.status_updatedAt s1 d1) ts)
  = handleTaskUpdate i (Partial.status_updatedAt s2 d2) ts.
Proof.
  unfold handleTaskUpdate. rewrite map_map. apply map_ext. intros t.
  destruct (id t =? i)%string eqn:E.
  - rewrite spread_status_updatedAt. simpl. now rewrite E.
  - now rewrite E.
Qed.

Lemma handleTaskUpdate_commutes (i j : string) (u v : Partial.t)
    (ts : list Task) :
  Partial.id u = None -> Partial.id v = None -> i <> j ->
  handleTaskUpdate i u (handleTaskUpdate j v ts)
  = handleTaskUpdate j v (handleTaskUpdate i u ts).
Proof.
  intros Hu Hv Hne. unfold handleTaskUpdate. rewrite !map_map.
  apply map_ext. intros t.
  destruct (id t =? i)%string eqn:Ei, (id t =? j)%string eqn:Ej.
  - apply String.eqb_eq in Ei, Ej. congruence.
  - now rewrite ?(id_spread _ _ Hu), ?Ei, ?Ej.
  - now rewrite ?(id_spread _ _ Hv), ?Ei, ?Ej.
  - now rewrite ?Ei, ?Ej.
Qed.

(** X20: only the last status change counts.  Two direct status changes of
    the same task, neither to CANCELLED, leave the state that the second
    alone would have left: the first status and its [updatedAt] are
    overwritten and nothing records them. *)
Theorem handleStatusChange_last_wins (now1 now2 : Date) (i : string)
    (t1 t2 : TaskStatus) (task : Task) (st : View) :
  findTask i (tasks st) = Some task -> status task <> CANCELLED ->
  t1 <> CANCELLED -> t2 <> CANCELLED ->
  handleStatusChange Dashboard_onTaskUpdate now2 i t2
    (snd (handleStatusChange Dashboard_onTaskUpdate now1 i t1 st))
  = handleStatusChange Dashboard_onTaskUpdate now2 i t2 st.
Proof.
  intros Hf Hs H1 H2.
  rewrite (@handleStatusChange_direct Dashboard_onTaskUpdate now1 i t1 task
             st Hf Hs H1).
  rewrite (@handleStatusChange_direct Dashboard_onTaskUpdate now2 i t2 task
             st Hf Hs H2).
  cbn [snd call_onTaskUpdate Dashboard_onTaskUpdate].
  rewrite (@handleStatusChange_direct Dashboard_onTaskUpdate now2 i t2
             (spread task (Partial.status_updatedAt t1 now1))).
  - cbn [call_onTaskUpdate Dashboard_onTaskUpdate tasks confirmModal].
    now rewrite handleTaskUpdate_overwrites.
  - cbn [tasks]. now apply findTask_handleTaskUpdate_same.
  - exact H1.
  - exact H2.
Qed.

Lemma handleStatusChange_last_wins_witness :
  handleStatusChange Dashboard_onTaskUpdate 70 "b" COMPLETED
    (snd (handleStatusChange Dashboard_onTaskUpdate 60 "b" IN_PROGRESS
            sampleView))
  = handleStatusChange Dashboard_onTaskUpdate 70 "b" COMPLETED sampleView.
Proof.
  apply (@handleStatusChange_last_wins 60 70 "b" IN_PROGRESS COMPLETED
           (sampleTask "b" TODO) sampleView);
    [reflexivity | discriminate | discriminate | discriminate].
Defined.

(** X21: direct status changes of two different tasks commute: the state
    after both is the same in either order. *)
Theorem handleStatusChange_commutes (now1 now2 : Date) (i j : string)
    (t1 t2 : TaskStatus) (ti tj : Task) (st : View) :
  findTask i (tasks st) = Some ti -> status ti <> CANCELLED ->
  findTask j (tasks st) = Some tj -> status tj <> CANCELLED ->
  t1 <> CANCELLED -> t2 <> CANCELLED -> i <> j ->
  handleStatusChange Dashboard_onTaskUpdate now2 j t2
    (snd (handleStatusChange Dashboard_onTaskUpdate now1 i t1 st))
  = handleStatusChange Dashboard_onTaskUpdate now1 i t1
      (snd (handleStatusChange Dashboard_onTaskUpdate now2 j t2 st)).
Proof.
  intros Hi Hsi Hj Hsj H1 H2 Hne.
  rewrite (@handleStatusChange_direct Dashboard_onTaskUpdate now1 i t1 ti
             st Hi Hsi H1).
  rewrite (@handleStatusChange_direct Dashboard_onTaskUpdate now2 j t2 tj
             st Hj Hsj H2).
  cbn [snd call_onTaskUpdate Dashboard_onTaskUpdate].
  rewrite (@handleStatusChange_direct Dashboard_onTaskUpdate now2 j t2 tj).
  2:{ cbn [tasks]. rewrite findTask_handleTaskUpdate_other; auto. }
  2, 3: assumption.
  rewrite (@handleStatusChange_direct Dashboard_onTaskUpdate now1 i t1 ti).
  2:{ cbn [tasks]. rewrite findTask_handleTaskUpdate_other; auto. }
  2, 3: assumption.
  cbn [call_onTaskUpdate Dashboard_onTaskUpdate tasks confirmModal].
  f_equal. f_equal. apply handleTaskUpdate_commutes; auto.
Qed.

Lemma handleStatusChange_commutes_witness :
  handleStatusChange Dashboard_onTaskUpdate 70 "c" TODO
    (snd (handleStatusChange Dashboard_onTaskUpdate 60 "b" IN_PROGRESS
            sampleView))
  = handleStatusChange Dashboard_onTaskUpdate 60 "b" IN_PROGRESS
      (snd (handleStatusChange Dashboard_onTaskUpdate 70 "c" TODO
              sampleView)).
Proof.
  apply (@handleStatusChange_commutes 60 70 "b" "c" IN_PROGRESS TODO
           (sampleTask "b" TODO) (sampleTask "c" COMPLETED) sampleView);
    try reflexivity; discriminate.
Defined.

(** X22: the options of a status select are well formed.  For every status
    the list [getAvailableStatuses] gives has no repetition (the options use
    the status as their React key), contains the status itself (the value of
    the select), and no two statuses share a label. *)
Theorem status_select_options (s s' : TaskStatus) :
  NoDup (getAvailableStatuses s) /\
  In s (getAvailableStatuses s) /\
  (getStatusDisplayText s = getStatusDisplayText s' -> s = s').
Proof.
  split; [|split].
  - destruct s; simpl; repeat constructor; simpl; intuition discriminate.
  - destruct s; simpl; tauto.
  - destruct s, s'; simpl; intros H; try reflexivity; discriminate.
Qed.

Lemma status_select_options_witness :
  NoDup (getAvailableStatuses TODO) /\
  In TODO (getAvailableStatuses TODO) /\
  TODO = TODO.
Proof.
  destruct (status_select_options TODO TODO) as (H1 & H2 & H3).
  split; [exact H1 | split; [exact H2 | exact (H3 eq_refl)]].
Defined.

(** X23: while the summary is awaited the modal shows the spinner and
    nothing else.  [handleAISummary] begins with four state updates, and is
    those updates followed by its [try] block; in the state they leave,
    whatever an earlier run left behind, the modal is open and renders the
    loading panel alone: no old error, no old summary. *)
Theorem handleAISummary_pending_panel
    (post : Payload -> Settled ResponseData) (s : Dashboard.t) :
  AISummaryModal (final (handleAISummary_start s)) = [LoadingPanel] /\
  Dashboard.tasks (final (handleAISummary_start s)) = Dashboard.tasks s /\
  requests (handleAISummary_start s) = [] /\
  handleAISummary post s
  = (handleAISummary_start ;;
     tryCatchFinally
       (tasks <- readTasks ;;
        let incompleteTasks := filter isActive tasks in
        if (length incompleteTasks =? 0)%nat then
          setAiSummary (Some emptyNotice)
        else
          summary <- getAISummary post incompleteTasks ;;
          setAiSummary summary)
       (fun error =>
          setSummaryError (Some (or_else (message error) defaultFailure)))
       (setIsSummaryLoading false)) s.
Proof.
  repeat split.
Qed.
